(** * Discord-Bot-Framework: the [Bot] class of [bot.py]

    A shallow embedding of the customised bot client: its fields, the
    settings loader, the one-shot initialisation run on "ready", the guild
    persistence operations and the administration check, followed by the
    properties the specification states about them.

    Python values are dynamically typed, so the values read from the JSON
    configuration are kept as [pyval]; methods are computations in a small
    state-and-exception monad that also records, in order, every call made
    to the outside (console, framework, guild collaborators). *)

From Stdlib Require Import ZArith Lia Ascii String.
From stdpp Require Import base tactics option list strings gmap pretty.

Local Open Scope Z_scope.
Local Open Scope string_scope.

Local Set Warnings "-register-all".

(** ** Python values *)

(** A binary floating point number, as [json.loads] produces for a JSON
    number with a fraction or an exponent: the finite value
    [mantissa * 2 ^ exponent], an infinity or a NaN. *)
Inductive pyfloat :=
| Finite (mantissa exponent : Z)
| Infinity (negative : bool)
| NaN.

(** The values [json.loads] can return.  A [dict] keeps its entries in
    insertion order; lookups take the first entry with the key. *)
Inductive pyval :=
| PyNone
| PyBool (b : bool)
| PyInt (z : Z)
| PyFloat (f : pyfloat)
| PyStr (s : string)
| PyList (items : list pyval)
| PyDict (entries : list (string * pyval)).

(** The exceptions the modelled code can raise.  [ExternalError] stands for
    whatever a collaborator outside this file raises. *)
Inductive exn :=
| KeyError (key : pyval)
| TypeError
| ValueError
| OverflowError
| IndexError
| IsADirectoryError
| JSONDecodeError
| ExternalError (what : string).

(** An insertion-ordered [dict] with string keys. *)
Definition pydict (V : Type) : Type := list (string * V).

Fixpoint dict_get {V} (d : pydict V) (k : string) : option V :=
  match d with
  | [] => None
  | (k', v) :: d' => if String.eqb k' k then Some v else dict_get d' k
  end.

Definition dict_values {V} (d : pydict V) : list V := map snd d.

(** ** Collaborators *)

(** Modelled from the spec: the [Guild] class of [source/guild.py] is not
    part of the sources at hand.  The spec's collaborator contract says a
    registered object exposes [write_settings()] and [write_data()], taking
    no argument and returning nothing, and that their failures are not
    caught by the bot.  A guild is therefore an object identity together
    with the outcome of each of its two persistence calls. *)
Record Guild := {
  guild_ref : nat;
  write_settings_failure : option exn;
  write_data_failure : option exn
}.

(** [discord.ClientUser], as far as [prepare_data] reads it. *)
Record ClientUser := {
  user_name : string;
  user_id : Z
}.

(** What [os.path.exists] and [open] see at a path. *)
Inductive fs_entry :=
| RegularFile (content : string)
| Directory.

(** ** The bot object *)

Record Bot := {
  _name : string;
  _version : string;
  _token : pyval;
  _admins_id : list Z;
  _users : pydict pyval;
  _custom_guilds : pydict Guild;
  _activity_str : pyval;
  _custom_ready : bool;
  (* inherited from [commands.Bot] *)
  user : option ClientUser
}.

Definition set_admins_id (v : list Z) (b : Bot) : Bot :=
  {| _name := _name b; _version := _version b; _token := _token b;
     _admins_id := v; _users := _users b;
     _custom_guilds := _custom_guilds b; _activity_str := _activity_str b;
     _custom_ready := _custom_ready b; user := user b |}.

Definition set_token (v : pyval) (b : Bot) : Bot :=
  {| _name := _name b; _version := _version b; _token := v;
     _admins_id := _admins_id b; _users := _users b;
     _custom_guilds := _custom_guilds b; _activity_str := _activity_str b;
     _custom_ready := _custom_ready b; user := user b |}.

Definition set_activity_str (v : pyval) (b : Bot) : Bot :=
  {| _name := _name b; _version := _version b; _token := _token b;
     _admins_id := _admins_id b; _users := _users b;
     _custom_guilds := _custom_guilds b; _activity_str := v;
     _custom_ready := _custom_ready b; user := user b |}.

Definition set_custom_ready (v : bool) (b : Bot) : Bot :=
  {| _name := _name b; _version := _version b; _token := _token b;
     _admins_id := _admins_id b; _users := _users b;
     _custom_guilds := _custom_guilds b; _activity_str := _activity_str b;
     _custom_ready := v; user := user b |}.

Definition set_custom_guilds (v : pydict Guild) (b : Bot) : Bot :=
  {| _name := _name b; _version := _version b; _token := _token b;
     _admins_id := _admins_id b; _users := _users b;
     _custom_guilds := v; _activity_str := _activity_str b;
     _custom_ready := _custom_ready b; user := user b |}.

(** ** The world and the calls made to it *)

(** Calls that leave [bot.py], in the order they are made.  [Print] is a
    line of [log] (its timestamp is not recorded); [WriteSettings] and
    [WriteData] name the guild object they are invoked on; [OnError] is
    the framework reporting an exception that escaped an event handler. *)
Inductive event :=
| Print (origin message : string)
| WaitUntilReady
| LoadGuilds
| ChangePresence (name : pyval)
| WriteSettings (ref : nat)
| WriteData (ref : nat)
| OnError (e : exn).

(** The bot, the files on disk, and what the random generator will decide:
    for each coming call of [random.choice] on a non-empty sequence, the
    number whose remainder modulo the length is the position picked.  The
    generator's own state, and how many words it draws for one pick, are
    not modelled. *)
Record World := {
  self : Bot;
  files : gmap string fs_entry;
  picks : list nat
}.

Definition with_self (b : Bot) (w : World) : World :=
  {| self := b; files := files w; picks := picks w |}.

Definition with_picks (l : list nat) (w : World) : World :=
  {| self := self w; files := files w; picks := l |}.

(** ** The monad of methods

    A method maps a world to its result (a value, or the exception that
    escaped), the world it leaves and the calls it made. *)
Definition M (A : Type) : Type := World → (exn + A) * World * list event.

Definition ret {A} (a : A) : M A := λ w, (inr a, w, []).

Definition raise {A} (e : exn) : M A := λ w, (inl e, w, []).

Definition bind {A B} (m : M A) (k : A → M B) : M B := λ w,
  match m w with
  | (inl e, w1, t1) => (inl e, w1, t1)
  | (inr a, w1, t1) =>
      match k a w1 with
      | (r, w2, t2) => (r, w2, (t1 ++ t2)%list)
      end
  end.

Notation "x <- m ;; k" := (bind m (λ x, k))
  (at level 100, m at next level, right associativity).
Notation "m ;;; k" := (bind m (λ _, k))
  (at level 100, right associativity).

Definition emit (e : event) : M unit := λ w, (inr tt, w, [e]).

Definition get_self : M Bot := λ w, (inr (self w), w, []).

Definition update_self (f : Bot → Bot) : M unit :=
  λ w, (inr tt, with_self (f (self w)) w, []).

Definition lift {A} (r : exn + A) : M A :=
  match r with
  | inl e => raise e
  | inr a => ret a
  end.

(** Projections of a run. *)
Definition result {A} (o : (exn + A) * World * list event) : exn + A := o.1.1.
Definition world_after {A} (o : (exn + A) * World * list event) : World := o.1.2.
Definition calls {A} (o : (exn + A) * World * list event) : list event := o.2.

(** ** Python built-ins used by the settings loader *)

Module Py.

(** [int(f)] for a float: truncation towards zero; an infinity raises
    [OverflowError] and a NaN [ValueError]. *)
Definition int_of_float (f : pyfloat) : exn + Z :=
  match f with
  | Finite m e =>
      inr (if (0 <=? e)%Z then m * 2 ^ e else Z.quot m (2 ^ (- e)))
  | Infinity _ => inl OverflowError
  | NaN => inl ValueError
  end.

(** [int(v)].  The conversion of a string is the interpreter's: which
    characters count as digits and as spaces around the numeral, and how
    long a numeral may be, is for [int_of_str] to say; it gives the integer
    read, or nothing when [int] raises [ValueError]. *)
Definition int (int_of_str : string → option Z) (v : pyval) : exn + Z :=
  match v with
  | PyInt z => inr z
  | PyBool b => inr (if b then 1 else 0)
  | PyFloat f => int_of_float f
  | PyStr s =>
      match int_of_str s with
      | Some z => inr z
      | None => inl ValueError
      end
  | PyNone | PyList _ | PyDict _ => inl TypeError
  end.

(** The one-character strings of a string. *)
Fixpoint chars (s : string) : list pyval :=
  match s with
  | EmptyString => []
  | String c s' => PyStr (String c EmptyString) :: chars s'
  end.

(** [iter(v)] run to the end: the items of a list, the characters of a
    string, the keys of a dict; other values are not iterable. *)
Definition iter (v : pyval) : exn + list pyval :=
  match v with
  | PyList l => inr l
  | PyStr s => inr (chars s)
  | PyDict d => inr (map (λ kv, PyStr kv.1) d)
  | PyNone | PyBool _ | PyInt _ | PyFloat _ => inl TypeError
  end.

(** [list(map(f, items))]: stops at the first item on which [f] raises. *)
Fixpoint map_list {A B} (f : A → exn + B) (items : list A) : exn + list B :=
  match items with
  | [] => inr []
  | x :: items' =>
      match f x with
      | inl e => inl e
      | inr y =>
          match map_list f items' with
          | inl e => inl e
          | inr ys => inr (y :: ys)
          end
      end
  end.

(** [list(map(int, v))]: [map] asks for the iterator at once, [list]
    then converts item by item. *)
Definition int_list (int_of_str : string → option Z) (v : pyval)
    : exn + list Z :=
  match iter v with
  | inl e => inl e
  | inr items => map_list (int int_of_str) items
  end.

(** [v[key]] for a string key. *)
Definition getitem (v : pyval) (key : string) : exn + pyval :=
  match v with
  | PyDict d =>
      match dict_get d key with
      | Some x => inr x
      | None => inl (KeyError (PyStr key))
      end
  | _ => inl TypeError
  end.

(** [len(v)]. *)
Definition len (v : pyval) : exn + nat :=
  match v with
  | PyList l => inr (length l)
  | PyStr s => inr (String.length s)
  | PyDict d => inr (length d)
  | PyNone | PyBool _ | PyInt _ | PyFloat _ => inl TypeError
  end.

(** [v[i]] for an index [i] below [len(v)].  A dict read from JSON has
    string keys only, so an integer is never one of them. *)
Definition index (v : pyval) (i : nat) : exn + pyval :=
  match v with
  | PyList l =>
      match l !! i with Some x => inr x | None => inl IndexError end
  | PyStr s =>
      match chars s !! i with Some x => inr x | None => inl IndexError end
  | PyDict _ => inl (KeyError (PyInt (Z.of_nat i)))
  | PyNone | PyBool _ | PyInt _ | PyFloat _ => inl TypeError
  end.

End Py.

(** [random.choice(seq)]: an empty sequence raises [IndexError]; otherwise
    an element is picked, at the position the next number of [picks] has as
    remainder modulo [len(seq)], so that every position can be picked. *)
Definition choice (seq : pyval) : M pyval := λ w,
  match Py.len seq with
  | inl e => (inl e, w, [])
  | inr O => (inl IndexError, w, [])
  | inr (S n) =>
      let r := hd O (picks w) in
      (Py.index seq (r mod S n)%nat, with_picks (tl (picks w)) w, [])
  end.

(** ** The methods of [Bot] *)

(** The double quote character, for the messages that contain one. *)
Definition dquote : string :=
  String (Ascii false true false false false true false false) EmptyString.

(** The message [load_internal_settings] logs for a missing file. *)
Definition loading_failed_message : string :=
  "The loading operation has failed. The file " +:+ dquote
  +:+ "internal_settings.json" +:+ dquote
  +:+ " should be in the system directory".

Section Methods.

(** [json.loads], from the standard library: the value a text decodes to,
    or the decoding error. *)
Variable json_loads : string → exn + pyval.

(** The built-in [int] on a string: the integer it reads, or nothing when
    it raises [ValueError]. *)
Variable int_of_str : string → option Z.

(** The abstract method [load_guilds], supplied by the application's
    subclass: from the bot it is called on, the guild registry it leaves
    behind and the exception it raised, if any. *)
Variable load_guilds_impl : Bot → pydict Guild * option exn.

(** [log]: one line on the console. *)
Definition log (origin message : string) : M unit :=
  emit (Print origin message).

(** The framework's [wait_until_ready] and [change_presence]. *)
Definition wait_until_ready : M unit := emit WaitUntilReady.

Definition change_presence (name : pyval) : M unit :=
  emit (ChangePresence name).

(** The call of the abstract [load_guilds]. *)
Definition load_guilds : M unit :=
  emit LoadGuilds;;;
  b <- get_self;;
  update_self (set_custom_guilds (load_guilds_impl b).1);;;
  match (load_guilds_impl b).2 with
  | Some e => raise e
  | None => ret tt
  end.

(** The persistence calls of a guild collaborator. *)
Definition write_settings (g : Guild) : M unit :=
  emit (WriteSettings (guild_ref g));;;
  match write_settings_failure g with
  | Some e => raise e
  | None => ret tt
  end.

Definition write_data (g : Guild) : M unit :=
  emit (WriteData (guild_ref g));;;
  match write_data_failure g with
  | Some e => raise e
  | None => ret tt
  end.

(** [self._custom_guilds[key]]. *)
Definition custom_guilds_getitem (key : string) : M Guild :=
  b <- get_self;;
  match dict_get (_custom_guilds b) key with
  | Some g => ret g
  | None => raise (KeyError (PyStr key))
  end.

(** [set_activity]: the argument when it is not empty, the stored activity
    string otherwise. *)
Definition set_activity (activity : string) : M unit :=
  if negb (String.eqb activity "")
  then change_presence (PyStr activity)
  else b <- get_self;; change_presence (_activity_str b).

(** [prepare_data]: returns at once when the flag is set; otherwise sets it
    and initialises. *)
Definition prepare_data : M unit :=
  b <- get_self;;
  if negb (_custom_ready b)
  then
    update_self (set_custom_ready true);;;
    log "Bot" "Waiting...";;;
    wait_until_ready;;;
    load_guilds;;;
    b <- get_self;;
    match user b with
    | Some u =>
        log "Bot" (_name b +:+ " " +:+ _version b +:+ " ready to operate");;;
        log "Bot" ("Logged as " +:+ user_name u +:+ ", with the id: "
                   +:+ pretty (user_id u));;;
        set_activity ""
    | None =>
        log "Bot" "Failed to get the user data";;;
        set_activity "ERROR"
    end
  else ret tt.

(** [load_internal_settings]: [None] for the empty path; the decoded
    content of what exists at the path ([open] refuses a directory; files
    are taken to be readable, writable and valid UTF-8); otherwise a log
    line and [None]. *)
Definition load_internal_settings (path : string) : M pyval :=
  if String.eqb path "" then ret PyNone
  else λ w,
    match files w !! path with
    | Some (RegularFile internal_settings_json) =>
        lift (json_loads internal_settings_json) w
    | Some Directory => raise IsADirectoryError w
    | None =>
        (log "Bot" loading_failed_message;;; ret PyNone) w
    end.

(** [set_internal_settings]: the three keys are read and the three fields
    assigned one after the other. *)
Definition set_internal_settings (path : string) : M unit :=
  log "Bot" "Loading internal definitions";;;
  internal_settings <- load_internal_settings path;;
  match internal_settings with
  | PyNone => log "Bot" "Failed set internal definitions"
  | _ =>
      adm <- lift (Py.getitem internal_settings "ADM_ID");;
      ids <- lift (Py.int_list int_of_str adm);;
      update_self (set_admins_id ids);;;
      token <- lift (Py.getitem internal_settings "TOKEN");;
      update_self (set_token token);;;
      activities <- lift (Py.getitem internal_settings "Activities");;
      chosen <- choice activities;;
      update_self (set_activity_str chosen)
  end.

(** [__init__]: the fresh object, then the settings. *)
Definition init (name settings_file version : string) : M unit :=
  update_self (λ _,
    {| _name := name; _version := version; _token := PyStr "";
       _admins_id := []; _users := []; _custom_guilds := [];
       _activity_str := PyStr ""; _custom_ready := false; user := None |});;;
  log "Bot" ("Initializing " +:+ name +:+ " " +:+ version);;;
  log "Bot" "Initializing the RNG";;;
  set_internal_settings settings_file.

(** [save_guild]: the registry is subscripted once for each call. *)
Definition save_guild (guild_id : Z) : M unit :=
  g <- custom_guilds_getitem (pretty guild_id);;
  write_settings g;;;
  g <- custom_guilds_getitem (pretty guild_id);;
  write_data g.

(** The [for] loop of [save_all_guilds] over the registry's values. *)
Fixpoint save_each (guilds : list Guild) : M unit :=
  match guilds with
  | [] => ret tt
  | guild :: rest =>
      write_settings guild;;;
      write_data guild;;;
      save_each rest
  end.

Definition save_all_guilds : M unit :=
  b <- get_self;;
  save_each (dict_values (_custom_guilds b)).

Definition is_admin (author_id : Z) : M bool :=
  b <- get_self;;
  ret (bool_decide (author_id ∈ _admins_id b)).

Definition get_custom_guild (guild_id : Z) : M Guild :=
  custom_guilds_getitem (pretty guild_id).

(** The autosave loop's body. *)
Definition save : M unit :=
  log "Bot" "Saving all guilds automatically";;;
  save_all_guilds.

(** Event handlers. *)
Definition on_ready : M unit :=
  log "Bot" "Ready";;;
  prepare_data.

Definition on_connect : M unit := log "Bot" "Connected".
Definition on_disconnect : M unit := log "Bot" "Disconnected".
Definition on_resumed : M unit := log "Bot" "Resumed".

End Methods.

(** ** The framework around the methods *)

Section Framework.

Variable json_loads : string → exn + pyval.
Variable int_of_str : string → option Z.
Variable load_guilds_impl : Bot → pydict Guild * option exn.

(** The framework runs an event handler and keeps going when it raises:
    the exception is reported through [on_error] and not propagated. *)
Definition dispatch (handler : M unit) : M unit := λ w,
  match handler w with
  | (inl e, w', t) => (inr tt, w', (t ++ [OnError e])%list)
  | (inr _, w', t) => (inr tt, w', t)
  end.

(** [n] deliveries of "ready", one after the other. *)
Fixpoint deliver_ready (n : nat) : M unit :=
  match n with
  | O => ret tt
  | S n' => dispatch (on_ready load_guilds_impl);;; deliver_ready n'
  end.

(** The operations of a constructed bot: its event handlers, the autosave
    body and its public methods, with their arguments.  Left out are [run],
    which hands the process over to the framework's loop, and [get_info] and
    the [custom_guilds] getter, which only read. *)
Inductive operation :=
| Op_on_ready
| Op_on_connect
| Op_on_disconnect
| Op_on_resumed
| Op_save
| Op_prepare_data
| Op_set_activity (activity : string)
| Op_load_internal_settings (path : string)
| Op_set_internal_settings (path : string)
| Op_save_guild (guild_id : Z)
| Op_save_all_guilds
| Op_is_admin (author_id : Z)
| Op_get_custom_guild (guild_id : Z)
| Op_log (origin message : string).

Definition discard {A} (m : M A) : M unit := _ <- m;; ret tt.

Definition perform (op : operation) : M unit :=
  match op with
  | Op_on_ready => on_ready load_guilds_impl
  | Op_on_connect => on_connect
  | Op_on_disconnect => on_disconnect
  | Op_on_resumed => on_resumed
  | Op_save => save
  | Op_prepare_data => prepare_data load_guilds_impl
  | Op_set_activity activity => set_activity activity
  | Op_load_internal_settings path =>
      discard (load_internal_settings json_loads path)
  | Op_set_internal_settings path =>
      set_internal_settings json_loads int_of_str path
  | Op_save_guild guild_id => save_guild guild_id
  | Op_save_all_guilds => save_all_guilds
  | Op_is_admin author_id => discard (is_admin author_id)
  | Op_get_custom_guild guild_id => discard (get_custom_guild guild_id)
  | Op_log origin message => log origin message
  end.

(** Any sequence of operations, each one run whatever the previous one
    returned or raised. *)
Fixpoint perform_all (ops : list operation) (w : World) : World * list event :=
  match ops with
  | [] => (w, [])
  | op :: ops' =>
      let o := perform op w in
      let r := perform_all ops' (world_after o) in
      (r.1, (calls o ++ r.2)%list)
  end.

End Framework.

(** The one operation that assigns the settings. *)
Definition reloads_settings (op : operation) : bool :=
  match op with
  | Op_set_internal_settings _ => true
  | _ => false
  end.

(** ** The "ready" handler on the event loop

    [on_ready] is a coroutine: it runs until it has to wait, and other
    handlers may run before it is resumed.  It can be suspended where it
    awaits the framework: in [wait_until_ready] and in [change_presence].
    A stage names the point a handler has reached. *)
Inductive stage :=
| Fresh
| Waiting
| Presenting
| Over.

(** The stretch of [on_ready] (and of the [prepare_data] it awaits) that
    runs without interruption from a stage, and the stage it stops at. *)
Definition resume (load_guilds_impl : Bot → pydict Guild * option exn)
    (s : stage) : M stage :=
  match s with
  | Fresh =>
      log "Bot" "Ready";;;
      b <- get_self;;
      if negb (_custom_ready b)
      then
        update_self (set_custom_ready true);;;
        log "Bot" "Waiting...";;;
        wait_until_ready;;;
        ret Waiting
      else ret Over
  | Waiting =>
      load_guilds load_guilds_impl;;;
      b <- get_self;;
      match user b with
      | Some u =>
          log "Bot" (_name b +:+ " " +:+ _version b +:+ " ready to operate");;;
          log "Bot" ("Logged as " +:+ user_name u +:+ ", with the id: "
                     +:+ pretty (user_id u));;;
          set_activity ""
      | None =>
          log "Bot" "Failed to get the user data";;;
          set_activity "ERROR"
      end;;;
      ret Presenting
  | Presenting => ret Over
  | Over => ret Over
  end.

(** A handler run from start to end without any other in between. *)
Definition run_through (load_guilds_impl : Bot → pydict Guild * option exn)
    : M unit :=
  s1 <- resume load_guilds_impl Fresh;;
  s2 <- resume load_guilds_impl s1;;
  _ <- resume load_guilds_impl s2;;
  ret tt.

(** A handler that raised is over; the framework reports the exception. *)
Definition settle (o : (exn + stage) * World * list event)
    : stage * World * list event :=
  match o with
  | (inr s, w, t) => (s, w, t)
  | (inl e, w, t) => (Over, w, (t ++ [OnError e])%list)
  end.

(** Resume the [i]-th handler of the pool (nothing happens when there is
    none). *)
Fixpoint resume_task (load_guilds_impl : Bot → pydict Guild * option exn)
    (i : nat) (pool : list stage) (w : World) {struct pool}
    : list stage * World * list event :=
  match pool with
  | [] => ([], w, [])
  | s :: rest =>
      match i with
      | O =>
          match settle (resume load_guilds_impl s w) with
          | (s', w', t) => (s' :: rest, w', t)
          end
      | S i' =>
          match resume_task load_guilds_impl i' rest w with
          | (rest', w', t) => (s :: rest', w', t)
          end
      end
  end.

(** What the event loop does next: take a new "ready" delivery, or resume
    one of the handlers. *)
Inductive turn :=
| Deliver
| Resume (i : nat).

Fixpoint event_loop (load_guilds_impl : Bot → pydict Guild * option exn)
    (turns : list turn) (pool : list stage) (w : World)
    : list stage * World * list event :=
  match turns with
  | [] => (pool, w, [])
  | Deliver :: turns' =>
      event_loop load_guilds_impl turns' (pool ++ [Fresh])%list w
  | Resume i :: turns' =>
      match resume_task load_guilds_impl i pool w with
      | (pool', w', t) =>
          match event_loop load_guilds_impl turns' pool' w' with
          | (pool'', w'', t') => (pool'', w'', (t ++ t')%list)
          end
      end
  end.

Definition is_waiting (s : stage) : bool :=
  match s with Waiting => true | _ => false end.

(** The handlers suspended between the flag and [load_guilds]. *)
Definition waiting_tasks (pool : list stage) : nat :=
  length (List.filter is_waiting pool).

(** One while the flag is false, zero once it is true. *)
Definition unready (w : World) : nat :=
  if _custom_ready (self w) then 0%nat else 1%nat.

(** ** Counting calls *)

Definition count_calls (p : event → bool) (t : list event) : nat :=
  length (List.filter p t).

Definition is_load_guilds (e : event) : bool :=
  match e with LoadGuilds => true | _ => false end.

Definition is_wait_until_ready (e : event) : bool :=
  match e with WaitUntilReady => true | _ => false end.

Definition is_change_presence (e : event) : bool :=
  match e with ChangePresence _ => true | _ => false end.

Definition is_write_settings_on (ref : nat) (e : event) : bool :=
  match e with WriteSettings r => Nat.eqb r ref | _ => false end.

Definition is_write_data_on (ref : nat) (e : event) : bool :=
  match e with WriteData r => Nat.eqb r ref | _ => false end.

Definition is_persistence (e : event) : bool :=
  match e with WriteSettings _ | WriteData _ => true | _ => false end.

Definition is_print (e : event) : bool :=
  match e with Print _ _ => true | _ => false end.

(** How many entries of a registry hold the guild object [ref]. *)
Definition registrations (ref : nat) (reg : pydict Guild) : nat :=
  length (List.filter (λ g, Nat.eqb (guild_ref g) ref) (dict_values reg)).

(** The persistence calls a full save of the guilds [gs] makes. *)
Definition full_save (gs : list Guild) : list event :=
  flat_map (λ g, [WriteSettings (guild_ref g); WriteData (guild_ref g)]) gs.

(** Both persistence calls of a guild return normally. *)
Definition persists (g : Guild) : Prop :=
  write_settings_failure g = None ∧ write_data_failure g = None.

(** Every [write_data] comes right after the [write_settings] of the same
    guild object. *)
Definition settings_first (t : list event) : Prop :=
  ∀ pre ref post,
    t = (pre ++ WriteData ref :: post)%list →
    ∃ pre', pre = (pre' ++ [WriteSettings ref])%list.

(** Traces made of [write_settings]/[write_data] pairs, possibly cut after
    a [write_settings]. *)
Inductive paired : list event → Prop :=
| paired_nil : paired []
| paired_cut ref : paired [WriteSettings ref]
| paired_cons ref t :
    paired t → paired (WriteSettings ref :: WriteData ref :: t).

(** A method never falsifies a property of the bot that holds before it. *)
Definition keeps (P : Bot → Prop) {A} (m : M A) : Prop :=
  ∀ w, P (self w) → P (self (world_after (m w))).

Definition is_ready (b : Bot) : Prop := _custom_ready b = true.

(** The calls every first run of [prepare_data] starts with. *)
Definition opening : list event :=
  [Print "Bot" "Waiting..."; WaitUntilReady; LoadGuilds].

(** The calls that follow a successful [load_guilds]. *)
Definition closing (b : Bot) : list event :=
  match user b with
  | Some u =>
      [Print "Bot" (_name b +:+ " " +:+ _version b +:+ " ready to operate");
       Print "Bot" ("Logged as " +:+ user_name u +:+ ", with the id: "
                    +:+ pretty (user_id u));
       ChangePresence (_activity_str b)]
  | None =>
      [Print "Bot" "Failed to get the user data";
       ChangePresence (PyStr "ERROR")]
  end.

(** The bot once the flag is set, and once [load_guilds] has run on it. *)
Definition armed (b : Bot) : Bot := set_custom_ready true b.

Definition loaded (load_guilds_impl : Bot → pydict Guild * option exn)
    (b : Bot) : Bot :=
  set_custom_guilds (load_guilds_impl (armed b)).1 (armed b).

(** What [load_guilds] raises when called on the bot [b], if anything. *)
Definition load_failure (load_guilds_impl : Bot → pydict Guild * option exn)
    (b : Bot) : option exn :=
  (load_guilds_impl (armed b)).2.

(** A conversion error of [int]: one of the three exceptions it raises, none
    of them a key-lookup failure. *)
Definition conversion_error (e : exn) : Prop :=
  e = TypeError ∨ e = ValueError ∨ e = OverflowError.

Definition is_key_error (e : exn) : Prop := ∃ key, e = KeyError key.

(** Some line was logged among the calls [t]. *)
Definition logged (t : list event) : Prop :=
  ∃ origin message, Print origin message ∈ t.

(** ** Sample data *)

Module Sample.

Definition q (s : string) : string := dquote +:+ s +:+ dquote.

(** A well-formed settings file. *)
Definition good_text : string :=
  "{" +:+ q "ADM_ID" +:+ ": [" +:+ q "12" +:+ ", 5], "
      +:+ q "TOKEN" +:+ ": " +:+ q "secret" +:+ ", "
      +:+ q "Activities" +:+ ": [" +:+ q "chess" +:+ ", " +:+ q "go" +:+ "]}".

Definition good_cfg : pydict pyval :=
  [("ADM_ID", PyList [PyStr "12"; PyInt 5]);
   ("TOKEN", PyStr "secret");
   ("Activities", PyList [PyStr "chess"; PyStr "go"])].

(** A settings file without [TOKEN] and [Activities], whose admin entry is
    not a numeral. *)
Definition bad_text : string :=
  "{" +:+ q "ADM_ID" +:+ ": [" +:+ q "abc" +:+ "]}".

Definition bad_cfg : pydict pyval := [("ADM_ID", PyList [PyStr "abc"])].

(** A settings file without [Activities]. *)
Definition short_text : string :=
  "{" +:+ q "ADM_ID" +:+ ": [7], " +:+ q "TOKEN" +:+ ": " +:+ q "secret" +:+ "}".

Definition short_cfg : pydict pyval :=
  [("ADM_ID", PyList [PyInt 7]); ("TOKEN", PyStr "secret")].

(** What [json.loads] returns on the sample texts. *)
Definition loads (text : string) : exn + pyval :=
  if String.eqb text good_text then inr (PyDict good_cfg)
  else if String.eqb text bad_text then inr (PyDict bad_cfg)
  else if String.eqb text short_text then inr (PyDict short_cfg)
  else inl JSONDecodeError.

(** What [int] returns on the strings of the samples: ["12"] is a
    numeral, the others are not. *)
Definition int_of_str (s : string) : option Z :=
  if String.eqb s "12" then Some 12 else None.

Definition disk : gmap string fs_entry :=
  {[ "internal_settings.json" := RegularFile good_text;
     "bad.json" := RegularFile bad_text;
     "short.json" := RegularFile short_text ]}.

Definition guild_a : Guild :=
  {| guild_ref := 1; write_settings_failure := None;
     write_data_failure := None |}.

Definition guild_b : Guild :=
  {| guild_ref := 2; write_settings_failure := None;
     write_data_failure := None |}.

Definition registry : pydict Guild := [("100", guild_a); ("200", guild_b)].

(** A subclass whose [load_guilds] registers the two sample guilds. *)
Definition load_two (b : Bot) : pydict Guild * option exn :=
  (registry, None).

(** A subclass whose [load_guilds] fails before registering anything. *)
Definition load_failing (b : Bot) : pydict Guild * option exn :=
  (_custom_guilds b, Some (ExternalError "load_guilds")).

(** The bot as [__init__] leaves it when no settings file is given. *)
Definition fresh : Bot :=
  {| _name := "Bot"; _version := "1.0"; _token := PyStr "";
     _admins_id := []; _users := []; _custom_guilds := [];
     _activity_str := PyStr ""; _custom_ready := false; user := None |}.

Definition configured : Bot :=
  {| _name := "Bot"; _version := "1.0"; _token := PyStr "secret";
     _admins_id := [12; 5]; _users := []; _custom_guilds := registry;
     _activity_str := PyStr "chess"; _custom_ready := false;
     user := Some {| user_name := "bot"; user_id := 42 |} |}.

Definition world (b : Bot) : World :=
  {| self := b; files := disk; picks := [7%nat; 3%nat] |}.

End Sample.

(** ** Further methods and vocabulary *)

(** [run]: the token is appended to the positional arguments, and the call
    goes on to the framework's own [run], here [super_run], whose result is
    returned. *)
Definition run {A} (super_run : list pyval → pydict pyval → M A)
    (args : list pyval) (kwargs : pydict pyval) : M A :=
  b <- get_self;;
  super_run (args ++ [_token b])%list kwargs.

(** The object [__init__] builds before it reads the settings. *)
Definition new_bot (name version : string) : Bot :=
  {| _name := name; _version := version; _token := PyStr "";
     _admins_id := []; _users := []; _custom_guilds := [];
     _activity_str := PyStr ""; _custom_ready := false; user := None |}.

(** The registry in which each guild sits under the decimal string of its
    identifier, the key [save_guild] and [get_custom_guild] look up. *)
Definition registry_of (entries : list (Z * Guild)) : pydict Guild :=
  map (λ entry, (pretty entry.1, entry.2)) entries.

(** A method that makes no call of the kind [p], whatever the world. *)
Definition never_calls (p : event → bool) {A} (m : M A) : Prop :=
  ∀ w, count_calls p (calls (m w)) = 0%nat.


(** The operations that enter [prepare_data], and those that save guilds. *)
Definition enters_prepare_data (op : operation) : bool :=
  match op with
  | Op_on_ready | Op_prepare_data => true
  | _ => false
  end.

Definition saves_guilds (op : operation) : bool :=
  match op with
  | Op_save | Op_save_guild _ | Op_save_all_guilds => true
  | _ => false
  end.

(** The exception a guild's save ends with, if any: that of
    [write_settings], else that of [write_data]. *)
Definition save_failure (g : Guild) : option exn :=
  match write_settings_failure g with
  | Some e => Some e
  | None => write_data_failure g
  end.

(** The calls made on a guild whose save fails. *)
Definition failed_save (g : Guild) : list event :=
  WriteSettings (guild_ref g) ::
  match write_settings_failure g with
  | Some _ => []
  | None => [WriteData (guild_ref g)]
  end.

Module Faulty.

(** A guild whose settings cannot be written, and one whose data cannot. *)
Definition no_settings : Guild :=
  {| guild_ref := 3; write_settings_failure := Some (ExternalError "disk");
     write_data_failure := None |}.

Definition no_data : Guild :=
  {| guild_ref := 4; write_settings_failure := None;
     write_data_failure := Some (ExternalError "disk") |}.

Definition registry : pydict Guild :=
  [("100", Sample.guild_a); ("300", no_settings); ("200", Sample.guild_b)].

Definition bot : Bot :=
  {| _name := "Bot"; _version := "1.0"; _token := PyStr "secret";
     _admins_id := [12; 5]; _users := []; _custom_guilds := registry;
     _activity_str := PyStr "chess"; _custom_ready := true;
     user := Some {| user_name := "bot"; user_id := 42 |} |}.

(** Settings files that do not decode to a mapping, or not at all, and one
    with an empty list of activities. *)
Definition garbage_text : string := "{".
Definition null_text : string := "null".
Definition list_text : string := "[1, 2]".
Definition idle_text : string :=
  "{" +:+ Sample.q "ADM_ID" +:+ ": [7], " +:+ Sample.q "TOKEN" +:+ ": "
      +:+ Sample.q "secret" +:+ ", " +:+ Sample.q "Activities" +:+ ": []}".

Definition idle_cfg : pydict pyval :=
  [("ADM_ID", PyList [PyInt 7]); ("TOKEN", PyStr "secret");
   ("Activities", PyList [])].

Definition loads (text : string) : exn + pyval :=
  if String.eqb text null_text then inr PyNone
  else if String.eqb text list_text then inr (PyList [PyInt 1; PyInt 2])
  else if String.eqb text idle_text then inr (PyDict idle_cfg)
  else Sample.loads text.

Definition disk : gmap string fs_entry :=
  {[ "garbage.json" := RegularFile garbage_text;
     "null.json" := RegularFile null_text;
     "list.json" := RegularFile list_text;
     "idle.json" := RegularFile idle_text;
     "short.json" := RegularFile Sample.short_text;
     "internal_settings.json" := RegularFile Sample.good_text ]}.

Definition world (b : Bot) : World :=
  {| self := b; files := disk; picks := [4%nat] |}.

(** A stand-in for the framework's [run] that returns the positional
    arguments it was given. *)
Definition echo_run (args : list pyval) (kwargs : pydict pyval)
    : M (list pyval) :=
  ret args.

End Faulty.

(** ** Facts about the monad and the counters *)

Lemma count_calls_app p t1 t2 :
  count_calls p (t1 ++ t2) = (count_calls p t1 + count_calls p t2)%nat.
Proof.
  unfold count_calls. rewrite List.filter_app, length_app. reflexivity.
Qed.

Lemma count_calls_cons p e t :
  count_calls p (e :: t) = ((if p e then 1 else 0) + count_calls p t)%nat.
Proof. unfold count_calls. simpl. destruct (p e); reflexivity. Qed.

(** *** Frame rules for [keeps] *)

Section Keeps.

Variable P : Bot → Prop.

Lemma keeps_ret {A} (a : A) : keeps P (ret a).
Proof. intros w H. exact H. Qed.

Lemma keeps_raise {A} (e : exn) : keeps P (@raise A e).
Proof. intros w H. exact H. Qed.

Lemma keeps_emit (e : event) : keeps P (emit e).
Proof. intros w H. exact H. Qed.

Lemma keeps_get_self : keeps P get_self.
Proof. intros w H. exact H. Qed.

Lemma keeps_lift {A} (r : exn + A) : keeps P (lift r).
Proof. destruct r; [apply keeps_raise | apply keeps_ret]. Qed.

Lemma keeps_update_self (f : Bot → Bot) :
  (∀ b, P b → P (f b)) → keeps P (update_self f).
Proof. intros Hf w H. apply Hf, H. Qed.

Lemma keeps_bind {A B} (m : M A) (k : A → M B) :
  keeps P m → (∀ a, keeps P (k a)) → keeps P (bind m k).
Proof.
  intros Hm Hk w H. specialize (Hm w H).
  unfold bind, world_after in *.
  destruct (m w) as [[[e | a] w1] t1]; simpl in *; [exact Hm |].
  specialize (Hk a w1 Hm). unfold world_after in Hk.
  destruct (k a w1) as [[r w2] t2]. exact Hk.
Qed.

Lemma keeps_choice (seq : pyval) : keeps P (choice seq).
Proof.
  intros w H. unfold choice, world_after.
  destruct (Py.len seq) as [e | [| n]]; simpl; exact H.
Qed.

Lemma keeps_if {A} (c : bool) (m1 m2 : M A) :
  keeps P m1 → keeps P m2 → keeps P (if c then m1 else m2).
Proof. destruct c; auto. Qed.

End Keeps.

Create HintDb keeps_db.

#[local] Hint Resolve keeps_ret keeps_raise keeps_emit keeps_get_self
  keeps_lift keeps_choice keeps_if : keeps_db.

(** *** What the methods keep

    A property of the bot that survives setting the flag and replacing the
    registry survives every method but [set_internal_settings]; that one
    also assigns the admin ID list, the token and the activity string. *)

Ltac keeps_tac :=
  repeat first
    [ solve [auto with keeps_db]
    | apply keeps_update_self; solve [auto]
    | apply keeps_bind; [| intros ?]
    | match goal with
      | |- keeps _ (match ?x with _ => _ end) => destruct x
      | |- keeps _ (if ?c then _ else _) => destruct c
      end ].

Section Frame.

Variable json_loads : string → exn + pyval.
Variable int_of_str : string → option Z.
Variable load_guilds_impl : Bot → pydict Guild * option exn.
Variable P : Bot → Prop.
Hypothesis P_ready : ∀ b, P b → P (set_custom_ready true b).
Hypothesis P_guilds : ∀ reg b, P b → P (set_custom_guilds reg b).

Lemma log_keeps o m : keeps P (log o m).
Proof. unfold log. keeps_tac. Qed.

Lemma set_activity_keeps a : keeps P (set_activity a).
Proof. unfold set_activity, change_presence. keeps_tac. Qed.

Lemma load_guilds_keeps : keeps P (load_guilds load_guilds_impl).
Proof. unfold load_guilds. keeps_tac. Qed.

Lemma prepare_data_keeps : keeps P (prepare_data load_guilds_impl).
Proof.
  unfold prepare_data.
  apply keeps_bind; [auto with keeps_db | intros b].
  apply keeps_if; [| auto with keeps_db].
  pose proof load_guilds_keeps. pose proof set_activity_keeps.
  unfold log, wait_until_ready. keeps_tac.
Qed.

Lemma load_internal_settings_keeps path :
  keeps P (load_internal_settings json_loads path).
Proof.
  unfold load_internal_settings. apply keeps_if; [auto with keeps_db |].
  intros w H. destruct (files w !! path) as [[text |] |].
  - apply (keeps_lift P (json_loads text) w H).
  - exact H.
  - exact H.
Qed.

Lemma set_internal_settings_keeps path :
  (∀ ids b, P b → P (set_admins_id ids b)) →
  (∀ token b, P b → P (set_token token b)) →
  (∀ chosen b, P b → P (set_activity_str chosen b)) →
  keeps P (set_internal_settings json_loads int_of_str path).
Proof.
  intros Hids Htoken Hact. unfold set_internal_settings.
  pose proof (load_internal_settings_keeps path).
  unfold log. keeps_tac.
Qed.

Lemma write_settings_keeps g : keeps P (write_settings g).
Proof. unfold write_settings. keeps_tac. Qed.

Lemma write_data_keeps g : keeps P (write_data g).
Proof. unfold write_data. keeps_tac. Qed.

Lemma custom_guilds_getitem_keeps k : keeps P (custom_guilds_getitem k).
Proof. unfold custom_guilds_getitem. keeps_tac. Qed.

Lemma save_guild_keeps guild_id : keeps P (save_guild guild_id).
Proof.
  unfold save_guild.
  pose proof write_settings_keeps. pose proof write_data_keeps.
  pose proof custom_guilds_getitem_keeps. keeps_tac.
Qed.

Lemma save_each_keeps gs : keeps P (save_each gs).
Proof.
  induction gs as [| g gs IH]; simpl; [auto with keeps_db |].
  pose proof write_settings_keeps. pose proof write_data_keeps.
  keeps_tac.
Qed.

Lemma save_all_guilds_keeps : keeps P save_all_guilds.
Proof.
  unfold save_all_guilds. pose proof save_each_keeps. keeps_tac.
Qed.

Lemma perform_keeps op :
  reloads_settings op = false ∨
  ((∀ ids b, P b → P (set_admins_id ids b)) ∧
   (∀ token b, P b → P (set_token token b)) ∧
   (∀ chosen b, P b → P (set_activity_str chosen b))) →
  keeps P (perform json_loads int_of_str load_guilds_impl op).
Proof.
  intros Hop.
  pose proof log_keeps. pose proof prepare_data_keeps.
  pose proof save_all_guilds_keeps.
  pose proof set_activity_keeps.
  pose proof load_internal_settings_keeps.
  pose proof save_guild_keeps.
  pose proof custom_guilds_getitem_keeps.
  destruct op; simpl;
    unfold on_ready, on_connect, on_disconnect, on_resumed, save, discard,
      is_admin, get_custom_guild; try solve [keeps_tac].
  destruct Hop as [Hop | (Hids & Htoken & Hact)]; [discriminate Hop |].
  apply set_internal_settings_keeps; assumption.
Qed.

End Frame.

Lemma perform_keeps_ready json_loads int_of_str load_guilds_impl op :
  keeps is_ready (perform json_loads int_of_str load_guilds_impl op).
Proof.
  apply perform_keeps; [intros b H; reflexivity | intros reg b H; exact H |].
  right. split_and!; intros x b H; exact H.
Qed.

Lemma perform_all_keeps_ready json_loads int_of_str load_guilds_impl ops w :
  is_ready (self w) →
  is_ready (self (perform_all json_loads int_of_str load_guilds_impl ops w).1).
Proof.
  revert w. induction ops as [| op ops IH]; intros w H; simpl; [exact H |].
  apply IH, perform_keeps_ready, H.
Qed.

(** The admin ID list is only assigned by [set_internal_settings]. *)
Lemma perform_keeps_admins json_loads int_of_str load_guilds_impl op (ids : list Z) :
  reloads_settings op = false →
  keeps (λ b, _admins_id b = ids) (perform json_loads int_of_str load_guilds_impl op).
Proof.
  intros Hop. apply perform_keeps;
    [intros b H; exact H | intros reg b H; exact H | left; exact Hop].
Qed.

(** ** One-time initialisation *)

Section Initialisation.

Variable load_guilds_impl : Bot → pydict Guild * option exn.

Lemma prepare_data_again w :
  _custom_ready (self w) = true →
  prepare_data load_guilds_impl w = (inr tt, w, []).
Proof.
  intros H. unfold prepare_data, bind, get_self. rewrite H. reflexivity.
Qed.

Lemma prepare_data_first w :
  _custom_ready (self w) = false →
  prepare_data load_guilds_impl w =
    match load_failure load_guilds_impl (self w) with
    | Some e => (inl e, with_self (loaded load_guilds_impl (self w)) w, opening)
    | None =>
        (inr tt, with_self (loaded load_guilds_impl (self w)) w,
         (opening ++ closing (loaded load_guilds_impl (self w)))%list)
    end.
Proof.
  intros H. unfold prepare_data, bind, get_self. rewrite H. simpl.
  unfold load_failure, loaded, closing, armed, load_guilds, bind, get_self, update_self,
    emit, raise, ret. simpl.
  destruct (load_guilds_impl (set_custom_ready true (self w))) as [reg [e |]];
    simpl; [reflexivity |].
  destruct (user (self w)) as [u |]; reflexivity.
Qed.

Lemma on_ready_again w :
  _custom_ready (self w) = true →
  dispatch (on_ready load_guilds_impl) w = (inr tt, w, [Print "Bot" "Ready"]).
Proof.
  intros H. unfold dispatch, on_ready, bind, log, emit.
  rewrite (prepare_data_again w H). reflexivity.
Qed.

Lemma deliver_ready_again n w :
  _custom_ready (self w) = true →
  deliver_ready load_guilds_impl n w =
    (inr tt, w, repeat (Print "Bot" "Ready") n).
Proof.
  intros H. induction n as [| n IH]; [reflexivity |].
  simpl. unfold bind. rewrite (on_ready_again w H), IH. reflexivity.
Qed.

Lemma on_ready_first w :
  _custom_ready (self w) = false →
  dispatch (on_ready load_guilds_impl) w =
    (inr tt, with_self (loaded load_guilds_impl (self w)) w,
     (Print "Bot" "Ready" :: opening ++
      match load_failure load_guilds_impl (self w) with
      | Some e => [OnError e]
      | None => closing (loaded load_guilds_impl (self w))
      end)%list).
Proof.
  intros H. unfold dispatch, on_ready, bind, log, emit.
  rewrite (prepare_data_first w H).
  destruct (load_failure load_guilds_impl (self w)); reflexivity.
Qed.

Lemma count_repeat_ready p n :
  p (Print "Bot" "Ready") = false →
  count_calls p (repeat (Print "Bot" "Ready") n) = 0%nat.
Proof.
  intros Hp. induction n as [| n IH]; [reflexivity |].
  simpl. rewrite count_calls_cons, Hp, IH. reflexivity.
Qed.

Lemma deliver_ready_first n w :
  _custom_ready (self w) = false →
  deliver_ready load_guilds_impl (S n) w =
    (inr tt, with_self (loaded load_guilds_impl (self w)) w,
     ((Print "Bot" "Ready" :: opening ++
       match load_failure load_guilds_impl (self w) with
       | Some e => [OnError e]
       | None => closing (loaded load_guilds_impl (self w))
       end) ++ repeat (Print "Bot" "Ready") n)%list).
Proof.
  intros H. simpl. unfold bind. rewrite (on_ready_first w H).
  rewrite deliver_ready_again by reflexivity. reflexivity.
Qed.

Lemma count_closing_presence b :
  count_calls is_change_presence (closing b) = 1%nat.
Proof. unfold closing. destruct (user b); reflexivity. Qed.

Lemma count_closing_other p b :
  (∀ o m, p (Print o m) = false) → (∀ v, p (ChangePresence v) = false) →
  count_calls p (closing b) = 0%nat.
Proof.
  intros Hp Hc. unfold closing. destruct (user b);
    repeat rewrite count_calls_cons; rewrite ?Hp, ?Hc; reflexivity.
Qed.

End Initialisation.

Lemma set_activity_run (activity : string) (w : World) :
  set_activity activity w =
    (inr tt, w,
     [ChangePresence
        (if String.eqb activity "" then _activity_str (self w)
         else PyStr activity)]).
Proof.
  unfold set_activity. destruct (String.eqb activity ""); reflexivity.
Qed.

(** ** The handler as a coroutine *)

(** Run without interruption, the staged handler is [on_ready]. *)
Lemma run_through_on_ready
    (load_guilds_impl : Bot → pydict Guild * option exn) (w : World) :
  run_through load_guilds_impl w = on_ready load_guilds_impl w.
Proof.
  unfold run_through, on_ready, resume, prepare_data, bind, get_self, log,
    emit, ret. simpl.
  destruct (_custom_ready (self w)); simpl; [reflexivity |].
  unfold load_guilds, bind, get_self, update_self, emit, raise, ret. simpl.
  destruct (load_guilds_impl (set_custom_ready true (self w))) as [reg [e |]];
    simpl; [reflexivity |].
  destruct (user (self w)) as [u |]; reflexivity.
Qed.

(** Resuming a handler never spends more than it had: a call of
    [load_guilds] takes a waiting handler, a waiting handler takes the
    false flag. *)
Lemma resume_budget
    (load_guilds_impl : Bot → pydict Guild * option exn) (s : stage) (w : World) :
  ∀ s' w' t,
    settle (resume load_guilds_impl s w) = (s', w', t) →
    (count_calls is_load_guilds t + (if is_waiting s' then 1 else 0) + unready w'
       = (if is_waiting s then 1 else 0) + unready w)%nat ∧
    (count_calls is_wait_until_ready t + unready w' = unready w)%nat.
Proof.
  intros s' w' t. destruct s; unfold resume.
  - unfold bind, get_self, log, emit, ret, unready. simpl.
    destruct (_custom_ready (self w)) eqn:Hflag; simpl;
      intros H; inversion H; subst; simpl; rewrite ?Hflag; split; reflexivity.
  - unfold load_guilds, bind, get_self, update_self, emit, raise, ret, unready.
    simpl.
    destruct (load_guilds_impl (self w)) as [reg [e |]]; simpl.
    + intros H. inversion H; subst. simpl.
      destruct (_custom_ready (self w)); split; reflexivity.
    + destruct (user (self w)) as [u |]; simpl;
        intros H; inversion H; subst; simpl;
        destruct (_custom_ready (self w)); split; reflexivity.
  - simpl. intros H. inversion H; subst. split; reflexivity.
  - simpl. intros H. inversion H; subst. split; reflexivity.
Qed.

Lemma resume_task_budget
    (load_guilds_impl : Bot → pydict Guild * option exn)
    (i : nat) (pool : list stage) (w : World) :
  ∀ pool' w' t,
    resume_task load_guilds_impl i pool w = (pool', w', t) →
    (count_calls is_load_guilds t + waiting_tasks pool' + unready w'
       = waiting_tasks pool + unready w)%nat ∧
    (count_calls is_wait_until_ready t + unready w' = unready w)%nat.
Proof.
  revert i. induction pool as [| s rest IH]; intros i pool' w' t; simpl.
  - intros H. inversion H; subst. split; reflexivity.
  - destruct i as [| i].
    + destruct (settle (resume load_guilds_impl s w)) as [[s1 w1] t1] eqn:Hs.
      destruct (resume_budget load_guilds_impl s w s1 w1 t1 Hs) as [Hl Hw].
      intros H. inversion H; subst.
      split; [| exact Hw].
      unfold waiting_tasks in *. simpl.
      destruct (is_waiting s1), (is_waiting s); simpl in *; lia.
    + destruct (resume_task load_guilds_impl i rest w) as [[rest1 w1] t1] eqn:Hr.
      destruct (IH i rest1 w1 t1 Hr) as [Hl Hw].
      intros H. inversion H; subst.
      split; [| exact Hw].
      unfold waiting_tasks in *. simpl.
      destruct (is_waiting s); simpl in *; lia.
Qed.

Lemma waiting_tasks_deliver pool :
  waiting_tasks (pool ++ [Fresh]) = waiting_tasks pool.
Proof.
  unfold waiting_tasks. rewrite List.filter_app, length_app. simpl. lia.
Qed.

(** However the event loop orders deliveries and resumptions, the calls of
    [load_guilds] it makes, the handlers still waiting and the false flag
    add up to what there was at the start. *)
Lemma event_loop_budget
    (load_guilds_impl : Bot → pydict Guild * option exn)
    (turns : list turn) (pool : list stage) (w : World) :
  ∀ pool' w' t,
    event_loop load_guilds_impl turns pool w = (pool', w', t) →
    (count_calls is_load_guilds t + waiting_tasks pool' + unready w'
       = waiting_tasks pool + unready w)%nat ∧
    (count_calls is_wait_until_ready t + unready w' = unready w)%nat.
Proof.
  revert pool w. induction turns as [| [| i] turns IH]; intros pool w pool' w' t;
    simpl.
  - intros H. inversion H; subst. split; reflexivity.
  - intros H. apply IH in H. rewrite waiting_tasks_deliver in H. exact H.
  - destruct (resume_task load_guilds_impl i pool w) as [[pool1 w1] t1] eqn:H1.
    destruct (event_loop load_guilds_impl turns pool1 w1) as [[pool2 w2] t2] eqn:H2.
    apply resume_task_budget in H1 as [Hl1 Hw1].
    apply IH in H2 as [Hl2 Hw2].
    intros H. inversion H; subst.
    rewrite !count_calls_app. split; lia.
Qed.

Lemma event_loop_once
    (load_guilds_impl : Bot → pydict Guild * option exn)
    (turns : list turn) (w : World) :
  (count_calls is_load_guilds (event_loop load_guilds_impl turns [] w).2 ≤ 1)%nat ∧
  (count_calls is_wait_until_ready
     (event_loop load_guilds_impl turns [] w).2 ≤ 1)%nat.
Proof.
  destruct (event_loop load_guilds_impl turns [] w) as [[pool' w'] t] eqn:H.
  apply event_loop_budget in H as [Hl Hw]. simpl.
  unfold waiting_tasks, unready in *. simpl in *.
  destruct (_custom_ready (self w)), (_custom_ready (self w')); lia.
Qed.

(** C1. Over any number [n >= 1] of "ready" deliveries to a bot whose flag
    is still false, the initialisation body is entered exactly once: the
    framework is waited for once, [load_guilds] is called once, and the
    presence is set once (not at all when [load_guilds] raised).  The flag
    is true afterwards; once true, no sequence of operations of the bot
    makes it false again, and [prepare_data] returns at once, leaving the
    world as it is and calling nothing. *)
Theorem ready_initialisation_runs_once
    (json_loads : string → exn + pyval)
    (int_of_str : string → option Z)
    (load_guilds_impl : Bot → pydict Guild * option exn)
    (w : World) (n : nat) :
  _custom_ready (self w) = false →
  (0 < n)%nat →
  let o := deliver_ready load_guilds_impl n w in
  count_calls is_wait_until_ready (calls o) = 1%nat ∧
  count_calls is_load_guilds (calls o) = 1%nat ∧
  count_calls is_change_presence (calls o) =
    match load_failure load_guilds_impl (self w) with
    | Some _ => 0%nat
    | None => 1%nat
    end ∧
  _custom_ready (self (world_after o)) = true ∧
  (∀ w' ops,
     _custom_ready (self w') = true →
     _custom_ready
       (self (perform_all json_loads int_of_str load_guilds_impl ops w').1) = true) ∧
  (∀ w',
     _custom_ready (self w') = true →
     prepare_data load_guilds_impl w' = (inr tt, w', [])).
Proof.
  intros Hflag Hn. destruct n as [| n]; [lia |].
  cbv zeta. rewrite (deliver_ready_first load_guilds_impl n w Hflag).
  unfold calls, world_after. simpl.
  repeat rewrite count_calls_cons. simpl.
  repeat rewrite count_calls_app.
  rewrite !count_repeat_ready by reflexivity.
  split_and!.
  - destruct (load_failure load_guilds_impl (self w)); [reflexivity |].
    rewrite count_closing_other; reflexivity || (intros; reflexivity).
  - destruct (load_failure load_guilds_impl (self w)); [reflexivity |].
    rewrite count_closing_other; reflexivity || (intros; reflexivity).
  - destruct (load_failure load_guilds_impl (self w)); [reflexivity |].
    rewrite count_closing_presence. reflexivity.
  - reflexivity.
  - intros w' ops H. apply perform_all_keeps_ready, H.
  - intros w' H. apply prepare_data_again, H.
Qed.

Lemma ready_initialisation_runs_once_witness :
  _custom_ready (self (Sample.world Sample.fresh)) = false ∧
  (0 < 3)%nat ∧
  count_calls is_load_guilds
    (calls (deliver_ready Sample.load_two 3 (Sample.world Sample.fresh)))
  = 1%nat.
Proof.
  split; [reflexivity |]. split; [lia |].
  exact (proj1 (proj2
    (ready_initialisation_runs_once Sample.loads Sample.int_of_str Sample.load_two
       (Sample.world Sample.fresh) 3 eq_refl ltac:(lia)))).
Defined.

(** C9. On a bot whose flag is false, [prepare_data] sets the flag before
    anything else of the body runs: [load_guilds] is called on the bot with
    the flag already true.  Whatever the body does, the flag is true when
    [prepare_data] is left.  When [load_guilds] raises, the exception
    escapes after the three opening calls, the presence is never set, and
    still no later "ready" delivery or call of [prepare_data] starts the
    initialisation again.  The same holds when handlers interleave: however
    the event loop orders "ready" deliveries and the resumption of
    suspended handlers, the framework is waited for and [load_guilds] is
    called at most once. *)
Theorem flag_set_before_initialisation
    (load_guilds_impl : Bot → pydict Guild * option exn) (w : World) :
  _custom_ready (self w) = false →
  let o := prepare_data load_guilds_impl w in
  _custom_ready (self (world_after o)) = true ∧
  _custom_guilds (self (world_after o)) =
    (load_guilds_impl (set_custom_ready true (self w))).1 ∧
  (∃ rest, calls o = (opening ++ rest)%list) ∧
  (∀ e,
     load_failure load_guilds_impl (self w) = Some e →
     result o = inl e ∧ calls o = opening) ∧
  prepare_data load_guilds_impl (world_after o) = (inr tt, world_after o, []) ∧
  (∀ n,
     deliver_ready load_guilds_impl n (world_after o) =
       (inr tt, world_after o, repeat (Print "Bot" "Ready") n)) ∧
  run_through load_guilds_impl w = on_ready load_guilds_impl w ∧
  (∀ turns,
     (count_calls is_wait_until_ready
        (event_loop load_guilds_impl turns [] w).2 ≤ 1)%nat ∧
     (count_calls is_load_guilds
        (event_loop load_guilds_impl turns [] w).2 ≤ 1)%nat).
Proof.
  intros Hflag. cbv zeta.
  assert (Hloop : ∀ turns,
     (count_calls is_wait_until_ready
        (event_loop load_guilds_impl turns [] w).2 ≤ 1)%nat ∧
     (count_calls is_load_guilds
        (event_loop load_guilds_impl turns [] w).2 ≤ 1)%nat).
  { intros turns. destruct (event_loop_once load_guilds_impl turns w). auto. }
  pose proof (run_through_on_ready load_guilds_impl w) as Hrun.
  rewrite (prepare_data_first load_guilds_impl w Hflag).
  destruct (load_failure load_guilds_impl (self w)) as [e |] eqn:Hload.
  - split_and!.
    + reflexivity.
    + reflexivity.
    + exists []. symmetry. apply app_nil_r.
    + intros e' He'. injection He' as <-. split; reflexivity.
    + apply prepare_data_again. reflexivity.
    + intros n. apply deliver_ready_again. reflexivity.
    + exact Hrun.
    + exact Hloop.
  - split_and!.
    + reflexivity.
    + reflexivity.
    + eexists. reflexivity.
    + intros e He. discriminate He.
    + apply prepare_data_again. reflexivity.
    + intros n. apply deliver_ready_again. reflexivity.
    + exact Hrun.
    + exact Hloop.
Qed.

Lemma flag_set_before_initialisation_witness :
  _custom_ready (self (Sample.world Sample.configured)) = false ∧
  result (prepare_data Sample.load_failing (Sample.world Sample.configured))
    = inl (ExternalError "load_guilds") ∧
  _custom_ready
    (self (world_after
       (prepare_data Sample.load_failing (Sample.world Sample.configured))))
    = true.
Proof.
  pose proof (flag_set_before_initialisation Sample.load_failing
                (Sample.world Sample.configured) eq_refl) as H.
  cbv zeta in H. destruct H as (Hready & _ & _ & Hfail & _).
  split; [reflexivity |]. split; [| exact Hready].
  exact (proj1 (Hfail _ eq_refl)).
Defined.

(** C8. In the first run of [prepare_data], once [load_guilds] has
    returned: the run ends normally and sets the presence exactly once, as
    its last call, to the string ["ERROR"] when the framework has no user
    object, and to the stored activity string otherwise.  [set_activity]
    with the empty string uses the stored activity string, with any other
    string that string. *)
Theorem presence_after_initialisation
    (load_guilds_impl : Bot → pydict Guild * option exn) (w : World) :
  _custom_ready (self w) = false →
  load_failure load_guilds_impl (self w) = None →
  let o := prepare_data load_guilds_impl w in
  result o = inr tt ∧
  count_calls is_change_presence (calls o) = 1%nat ∧
  last (calls o) =
    Some (ChangePresence
            match user (self w) with
            | None => PyStr "ERROR"
            | Some _ => _activity_str (self w)
            end) ∧
  (∀ w', set_activity "" w' =
           (inr tt, w', [ChangePresence (_activity_str (self w'))])) ∧
  (∀ w' activity,
     activity ≠ "" →
     set_activity activity w' = (inr tt, w', [ChangePresence (PyStr activity)])).
Proof.
  intros Hflag Hload. cbv zeta.
  rewrite (prepare_data_first load_guilds_impl w Hflag), Hload.
  unfold result, calls. simpl. split_and!.
  - reflexivity.
  - unfold opening. repeat rewrite count_calls_cons. simpl.
    apply count_closing_presence.
  - unfold closing, loaded. simpl. destruct (user (self w)); reflexivity.
  - intros w'. apply set_activity_run.
  - intros w' activity Hne. rewrite set_activity_run.
    apply String.eqb_neq in Hne. rewrite Hne. reflexivity.
Qed.

Lemma presence_after_initialisation_witness :
  _custom_ready (self (Sample.world Sample.fresh)) = false ∧
  load_failure Sample.load_two (self (Sample.world Sample.fresh)) = None ∧
  last (calls (prepare_data Sample.load_two (Sample.world Sample.fresh)))
    = Some (ChangePresence (PyStr "ERROR")).
Proof.
  split; [reflexivity |]. split; [reflexivity |].
  exact (proj1 (proj2 (proj2
    (presence_after_initialisation Sample.load_two
       (Sample.world Sample.fresh) eq_refl eq_refl)))).
Defined.

(** ** Administration check *)

Lemma perform_all_keeps_admins json_loads int_of_str load_guilds_impl ops w :
  Forall (λ op, reloads_settings op = false) ops →
  _admins_id (self (perform_all json_loads int_of_str load_guilds_impl ops w).1)
    = _admins_id (self w).
Proof.
  intros Hops. revert w. induction Hops as [| op ops Hop _ IH]; intros w; simpl;
    [reflexivity |].
  rewrite IH.
  apply (perform_keeps_admins json_loads int_of_str load_guilds_impl op
           (_admins_id (self w)) Hop w).
  reflexivity.
Qed.

(** C6. [is_admin] answers true exactly when the identifier occurs in the
    admin ID list held by the bot, hence false for every identifier when
    that list is empty; the call leaves the world as it found it and calls
    nothing outside.  The list is the one the settings gave: no operation
    other than [set_internal_settings] changes it, so the answer stays the
    same across any sequence of the other operations. *)
Theorem is_admin_membership
    (json_loads : string → exn + pyval)
    (int_of_str : string → option Z)
    (load_guilds_impl : Bot → pydict Guild * option exn)
    (w : World) (author_id : Z) :
  ∃ answer : bool,
    is_admin author_id w = (inr answer, w, []) ∧
    (answer = true ↔ author_id ∈ _admins_id (self w)) ∧
    (_admins_id (self w) = [] → answer = false) ∧
    (∀ ops,
       Forall (λ op, reloads_settings op = false) ops →
       result
         (is_admin author_id
            (perform_all json_loads int_of_str load_guilds_impl ops w).1)
       = inr answer).
Proof.
  exists (bool_decide (author_id ∈ _admins_id (self w))). split_and!.
  - reflexivity.
  - apply bool_decide_eq_true.
  - intros Hnil. rewrite Hnil. apply bool_decide_eq_false, not_elem_of_nil.
  - intros ops Hops. unfold is_admin, bind, get_self, ret, result. simpl.
    rewrite (perform_all_keeps_admins json_loads int_of_str load_guilds_impl ops w Hops).
    reflexivity.
Qed.

Lemma is_admin_membership_witness :
  result (is_admin 5 (Sample.world Sample.configured)) = inr true ∧
  result
    (is_admin 5
       (perform_all Sample.loads Sample.int_of_str Sample.load_two
          [Op_on_ready; Op_save_all_guilds; Op_set_activity "go"]
          (Sample.world Sample.configured)).1)
  = inr true.
Proof.
  destruct (is_admin_membership Sample.loads Sample.int_of_str Sample.load_two
              (Sample.world Sample.configured) 5)
    as (answer & Hrun & _ & _ & Hops).
  assert (Hanswer : inr answer = (inr true : exn + bool)).
  { apply (f_equal result) in Hrun. exact (eq_sym Hrun). }
  split; [reflexivity |].
  rewrite <- Hanswer. apply Hops. repeat constructor.
Defined.

(** ** Saving guilds *)

Lemma write_settings_run g w :
  write_settings g w =
    (match write_settings_failure g with Some e => inl e | None => inr tt end,
     w, [WriteSettings (guild_ref g)]).
Proof. unfold write_settings, bind, emit. destruct (write_settings_failure g); reflexivity. Qed.

Lemma write_data_run g w :
  write_data g w =
    (match write_data_failure g with Some e => inl e | None => inr tt end,
     w, [WriteData (guild_ref g)]).
Proof. unfold write_data, bind, emit. destruct (write_data_failure g); reflexivity. Qed.

Lemma custom_guilds_getitem_run key w :
  custom_guilds_getitem key w =
    (match dict_get (_custom_guilds (self w)) key with
     | Some g => inr g
     | None => inl (KeyError (PyStr key))
     end, w, []).
Proof.
  unfold custom_guilds_getitem, bind, get_self.
  destruct (dict_get (_custom_guilds (self w)) key); reflexivity.
Qed.

(** What [save_guild] does, whatever the registry and the guild. *)
Lemma save_guild_run guild_id w :
  save_guild guild_id w =
    match dict_get (_custom_guilds (self w)) (pretty guild_id) with
    | None => (inl (KeyError (PyStr (pretty guild_id))), w, [])
    | Some g =>
        match write_settings_failure g with
        | Some e => (inl e, w, [WriteSettings (guild_ref g)])
        | None =>
            (match write_data_failure g with Some e => inl e | None => inr tt end,
             w, [WriteSettings (guild_ref g); WriteData (guild_ref g)])
        end
    end.
Proof.
  unfold save_guild, bind. rewrite custom_guilds_getitem_run.
  destruct (dict_get (_custom_guilds (self w)) (pretty guild_id)) as [g |] eqn:Hg;
    [| reflexivity].
  rewrite write_settings_run.
  destruct (write_settings_failure g); [reflexivity |].
  rewrite custom_guilds_getitem_run, Hg, write_data_run. reflexivity.
Qed.

(** What the loop of [save_all_guilds] does when no persistence call
    raises. *)
Lemma save_each_run gs w :
  Forall persists gs → save_each gs w = (inr tt, w, full_save gs).
Proof.
  induction 1 as [| g gs [Hs Hd] _ IH]; [reflexivity |].
  simpl. unfold bind. rewrite write_settings_run, write_data_run, Hs, Hd, IH.
  reflexivity.
Qed.

(** The calls of the loop always pair up, also when a call raises. *)
Lemma save_each_paired gs w : paired (calls (save_each gs w)).
Proof.
  induction gs as [| g gs IH]; [constructor |].
  simpl. unfold bind. rewrite write_settings_run, write_data_run.
  destruct (write_settings_failure g); [constructor |].
  destruct (write_data_failure g).
  - apply paired_cons, paired_nil.
  - unfold calls in *. destruct (save_each gs w) as [[r w'] t].
    apply paired_cons, IH.
Qed.

Lemma paired_settings_first t : paired t → settings_first t.
Proof.
  induction 1 as [| ref | ref t Hp IH]; intros pre r post Heq.
  - destruct pre; discriminate Heq.
  - destruct pre as [| e [| e' pre]]; discriminate Heq.
  - destruct pre as [| e [| e' pre]]; simpl in Heq.
    + discriminate Heq.
    + injection Heq as He Hr _. subst e r. exists []. reflexivity.
    + injection Heq as He He' Ht. subst e e'.
      destruct (IH _ _ _ Ht) as [pre' Hpre]. subst pre.
      exists (WriteSettings ref :: WriteData ref :: pre'). reflexivity.
Qed.

Lemma count_full_save_settings ref gs :
  count_calls (is_write_settings_on ref) (full_save gs) =
    length (List.filter (λ g, Nat.eqb (guild_ref g) ref) gs).
Proof.
  induction gs as [| g gs IH]; [reflexivity |].
  unfold full_save in *. simpl. rewrite !count_calls_cons, IH. simpl.
  destruct (Nat.eqb (guild_ref g) ref); reflexivity.
Qed.

Lemma count_full_save_data ref gs :
  count_calls (is_write_data_on ref) (full_save gs) =
    length (List.filter (λ g, Nat.eqb (guild_ref g) ref) gs).
Proof.
  induction gs as [| g gs IH]; [reflexivity |].
  unfold full_save in *. simpl. rewrite !count_calls_cons, IH. simpl.
  destruct (Nat.eqb (guild_ref g) ref); reflexivity.
Qed.

Lemma length_full_save gs : length (full_save gs) = (2 * length gs)%nat.
Proof.
  induction gs as [| g gs IH]; [reflexivity |].
  unfold full_save in *. simpl. rewrite IH. lia.
Qed.

(** Among distinct guild objects, each one is held once. *)
Lemma filter_ref_once (gs : list Guild) (g : Guild) :
  NoDup (map guild_ref gs) → g ∈ gs →
  length (List.filter (λ g', Nat.eqb (guild_ref g') (guild_ref g)) gs) = 1%nat.
Proof.
  induction gs as [| g' gs IH]; intros Hnd Hin.
  - apply elem_of_nil in Hin. destruct Hin.
  - simpl in Hnd. apply NoDup_cons in Hnd as [Hnotin Hnd].
    assert (Hout : ∀ x, x ∈ gs → Nat.eqb (guild_ref g') (guild_ref x) = false).
    { intros x Hx. apply Nat.eqb_neq. intros Heq. apply Hnotin.
      rewrite Heq. apply list_elem_of_fmap. exists x. split; [reflexivity | exact Hx]. }
    simpl. apply elem_of_cons in Hin as [-> | Hin].
    + rewrite Nat.eqb_refl. simpl. f_equal.
      clear IH Hnd Hnotin. induction gs as [| x gs IHgs]; [reflexivity |].
      simpl. rewrite Nat.eqb_sym, (Hout x) by apply list_elem_of_here.
      apply IHgs. intros y Hy. apply Hout, list_elem_of_further, Hy.
    + rewrite (Hout g Hin). apply IH; assumption.
Qed.

Lemma save_guild_paired guild_id w : paired (calls (save_guild guild_id w)).
Proof.
  rewrite save_guild_run.
  destruct (dict_get (_custom_guilds (self w)) (pretty guild_id)) as [g |];
    [| constructor].
  destruct (write_settings_failure g); [constructor |].
  apply paired_cons, paired_nil.
Qed.

Lemma save_all_guilds_run w :
  save_all_guilds w = save_each (dict_values (_custom_guilds (self w))) w.
Proof.
  unfold save_all_guilds, bind, get_self.
  destruct (save_each (dict_values (_custom_guilds (self w))) w) as [[r w'] t].
  reflexivity.
Qed.

(** C4. [save_guild] looks the identifier up under its decimal string.
    When the registry has no such key, the call raises [KeyError] for that
    key, makes no persistence call and changes nothing.  When the key holds
    a guild, [write_settings] is invoked on it exactly once, and, that call
    having returned, [write_data] exactly once: the two calls are all that
    [save_guild] does. *)
Theorem save_guild_lookup (w : World) (guild_id : Z) :
  let o := save_guild guild_id w in
  world_after o = w ∧
  match dict_get (_custom_guilds (self w)) (pretty guild_id) with
  | None =>
      result o = inl (KeyError (PyStr (pretty guild_id))) ∧
      calls o = []
  | Some g =>
      count_calls (is_write_settings_on (guild_ref g)) (calls o) = 1%nat ∧
      (write_settings_failure g = None →
       calls o = [WriteSettings (guild_ref g); WriteData (guild_ref g)] ∧
       count_calls (is_write_data_on (guild_ref g)) (calls o) = 1%nat ∧
       count_calls is_persistence (calls o) = 2%nat)
  end.
Proof.
  cbv zeta. rewrite save_guild_run.
  destruct (dict_get (_custom_guilds (self w)) (pretty guild_id)) as [g |].
  - destruct (write_settings_failure g) as [e |].
    + unfold world_after, calls. simpl. split_and!.
      * reflexivity.
      * rewrite count_calls_cons. simpl. rewrite Nat.eqb_refl. reflexivity.
      * intros H. discriminate H.
    + unfold world_after, calls. simpl. split_and!.
      * reflexivity.
      * rewrite !count_calls_cons. simpl. rewrite Nat.eqb_refl. reflexivity.
      * intros _. split_and!.
        -- reflexivity.
        -- rewrite !count_calls_cons. simpl. rewrite Nat.eqb_refl. reflexivity.
        -- reflexivity.
  - split_and!; reflexivity.
Qed.

Lemma save_guild_lookup_witness :
  result (save_guild 300 (Sample.world Sample.configured))
    = inl (KeyError (PyStr "300")) ∧
  calls (save_guild 200 (Sample.world Sample.configured))
    = [WriteSettings 2; WriteData 2].
Proof.
  split.
  - exact (proj1 (proj2 (save_guild_lookup (Sample.world Sample.configured) 300))).
  - exact (proj1 (proj2 (proj2
      (save_guild_lookup (Sample.world Sample.configured) 200)) eq_refl)).
Defined.

(** C5. When the persistence calls of the registered guilds return,
    [save_all_guilds] returns normally, changes nothing, and its calls are
    [write_settings] then [write_data] for each entry of the registry in
    turn: two calls per entry, each guild object receiving one
    [write_settings] and one [write_data] per entry that holds it, so
    exactly one of each when the registered objects are distinct, and no
    call at all for the empty registry. *)
Theorem save_all_guilds_once_each (w : World) :
  Forall persists (dict_values (_custom_guilds (self w))) →
  let o := save_all_guilds w in
  result o = inr tt ∧
  world_after o = w ∧
  calls o = full_save (dict_values (_custom_guilds (self w))) ∧
  length (calls o) = (2 * length (_custom_guilds (self w)))%nat ∧
  (∀ ref,
     count_calls (is_write_settings_on ref) (calls o)
       = registrations ref (_custom_guilds (self w)) ∧
     count_calls (is_write_data_on ref) (calls o)
       = registrations ref (_custom_guilds (self w))) ∧
  (NoDup (map guild_ref (dict_values (_custom_guilds (self w)))) →
   ∀ key g,
     (key, g) ∈ _custom_guilds (self w) →
     count_calls (is_write_settings_on (guild_ref g)) (calls o) = 1%nat ∧
     count_calls (is_write_data_on (guild_ref g)) (calls o) = 1%nat) ∧
  (_custom_guilds (self w) = [] → calls o = []).
Proof.
  intros Hok. cbv zeta. rewrite save_all_guilds_run, (save_each_run _ w Hok).
  unfold result, world_after, calls. simpl. split_and!.
  - reflexivity.
  - reflexivity.
  - reflexivity.
  - rewrite length_full_save. unfold dict_values. rewrite length_map.
    reflexivity.
  - intros ref. split.
    + apply count_full_save_settings.
    + apply count_full_save_data.
  - intros Hnd key g Hin.
    assert (Hg : g ∈ dict_values (_custom_guilds (self w))).
    { unfold dict_values. apply list_elem_of_fmap. exists (key, g).
      split; [reflexivity | exact Hin]. }
    rewrite count_full_save_settings, count_full_save_data.
    split; apply filter_ref_once; assumption.
  - intros Hnil. rewrite Hnil. reflexivity.
Qed.

Lemma save_all_guilds_once_each_witness :
  Forall persists
    (dict_values (_custom_guilds (self (Sample.world Sample.configured)))) ∧
  calls (save_all_guilds (Sample.world Sample.configured))
    = [WriteSettings 1; WriteData 1; WriteSettings 2; WriteData 2].
Proof.
  assert (H : Forall persists
    (dict_values (_custom_guilds (self (Sample.world Sample.configured))))).
  { repeat constructor. }
  split; [exact H |].
  exact (proj1 (proj2 (proj2
    (save_all_guilds_once_each (Sample.world Sample.configured) H)))).
Defined.

(** C10. In [save_guild] and in [save_all_guilds], whatever the registry
    and whether or not a persistence call raises, every [write_data] comes
    right after the [write_settings] of the same guild: the calls are a
    run of such pairs, cut short after a [write_settings] at most. *)
Theorem settings_written_before_data (w : World) (guild_id : Z) :
  (paired (calls (save_guild guild_id w)) ∧
   settings_first (calls (save_guild guild_id w))) ∧
  (paired (calls (save_all_guilds w)) ∧
   settings_first (calls (save_all_guilds w))).
Proof.
  assert (H1 := save_guild_paired guild_id w).
  assert (H2 : paired (calls (save_all_guilds w))).
  { rewrite save_all_guilds_run. apply save_each_paired. }
  split; split; try assumption; apply paired_settings_first; assumption.
Qed.

(** ** Internal settings *)

Lemma map_list_Forall2 {A B} (f : A → exn + B) (items : list A) (ys : list B) :
  Py.map_list f items = inr ys ↔ Forall2 (λ x y, f x = inr y) items ys.
Proof.
  revert ys. induction items as [| x items IH]; intros ys; simpl.
  - split.
    + intros H. injection H as <-. constructor.
    + intros H. inversion H. reflexivity.
  - split.
    + intros H. destruct (f x) as [e | y] eqn:Hx; [discriminate H |].
      destruct (Py.map_list f items) as [e | ys'] eqn:Hrest; [discriminate H |].
      injection H as <-. constructor; [exact Hx | apply IH; reflexivity].
    + intros H. inversion H as [| x' y items' ys' Hx Hrest]; subst.
      rewrite Hx. apply IH in Hrest. rewrite Hrest. reflexivity.
Qed.

Lemma int_error int_of_str v e :
  Py.int int_of_str v = inl e → conversion_error e.
Proof.
  unfold conversion_error.
  destruct v as [| b | z | [m x | neg |] | s | l | d]; simpl; intros H;
    try discriminate H; try (injection H as <-; auto).
  destruct (int_of_str s); [discriminate H | injection H as <-; auto].
Qed.

Lemma map_list_int_error int_of_str items e :
  Py.map_list (Py.int int_of_str) items = inl e → conversion_error e.
Proof.
  induction items as [| v items IH]; simpl; [discriminate |].
  destruct (Py.int int_of_str v) as [e' | z] eqn:Hv.
  - intros H. injection H as <-. eapply int_error, Hv.
  - destruct (Py.map_list (Py.int int_of_str) items) as [e' | ys];
      [| discriminate].
    intros H. injection H as <-. apply IH. reflexivity.
Qed.

Lemma int_list_error int_of_str v e :
  Py.int_list int_of_str v = inl e → conversion_error e.
Proof.
  unfold Py.int_list. destruct (Py.iter v) as [e' | items] eqn:Hv.
  - intros H. injection H as <-.
    destruct v; simpl in Hv; try discriminate Hv;
      injection Hv as <-; left; reflexivity.
  - apply map_list_int_error.
Qed.

Lemma conversion_error_not_key e : conversion_error e → ¬ is_key_error e.
Proof.
  intros [-> | [-> | ->]] [key H]; discriminate H.
Qed.

Section Settings.

Variable json_loads : string → exn + pyval.
Variable int_of_str : string → option Z.

Lemma load_internal_settings_run path w :
  load_internal_settings json_loads path w =
    if String.eqb path "" then (inr PyNone, w, [])
    else
      match files w !! path with
      | Some (RegularFile text) => (json_loads text, w, [])
      | Some Directory => (inl IsADirectoryError, w, [])
      | None => (inr PyNone, w, [Print "Bot" loading_failed_message])
      end.
Proof.
  unfold load_internal_settings. destruct (String.eqb path ""); [reflexivity |].
  destruct (files w !! path) as [[text |] |]; try reflexivity.
  unfold lift. destruct (json_loads text); reflexivity.
Qed.

(** Nothing was loaded: only the two log lines around the loader's own. *)
Lemma set_internal_settings_absent path w t :
  load_internal_settings json_loads path w = (inr PyNone, w, t) →
  set_internal_settings json_loads int_of_str path w =
    (inr tt, w,
     (Print "Bot" "Loading internal definitions" :: t ++
      [Print "Bot" "Failed set internal definitions"])%list).
Proof.
  intros H. unfold set_internal_settings, bind, log, emit. rewrite H.
  reflexivity.
Qed.

(** A mapping was loaded: the three keys are read in turn, each field
    being assigned before the next key is looked up. *)
Lemma set_internal_settings_mapping path w cfg :
  load_internal_settings json_loads path w = (inr (PyDict cfg), w, []) →
  set_internal_settings json_loads int_of_str path w =
    let said := [Print "Bot" "Loading internal definitions"] in
    match dict_get cfg "ADM_ID" with
    | None => (inl (KeyError (PyStr "ADM_ID")), w, said)
    | Some adm =>
        match Py.int_list int_of_str adm with
        | inl e => (inl e, w, said)
        | inr ids =>
            let w1 := with_self (set_admins_id ids (self w)) w in
            match dict_get cfg "TOKEN" with
            | None => (inl (KeyError (PyStr "TOKEN")), w1, said)
            | Some token =>
                let w2 := with_self (set_token token (self w1)) w1 in
                match dict_get cfg "Activities" with
                | None => (inl (KeyError (PyStr "Activities")), w2, said)
                | Some activities =>
                    match choice activities w2 with
                    | (inl e, w3, _) => (inl e, w3, said)
                    | (inr chosen, w3, _) =>
                        (inr tt,
                         with_self (set_activity_str chosen (self w3)) w3,
                         said)
                    end
                end
            end
        end
    end.
Proof.
  intros H. unfold set_internal_settings, bind, log, emit. rewrite H.
  cbv zeta. simpl.
  destruct (dict_get cfg "ADM_ID") as [adm |]; [| reflexivity]. simpl.
  destruct (Py.int_list int_of_str adm) as [e | ids]; [reflexivity |]. simpl.
  destruct (dict_get cfg "TOKEN") as [token |]; [| reflexivity]. simpl.
  destruct (dict_get cfg "Activities") as [activities |]; [| reflexivity].
  simpl. unfold choice.
  destruct (Py.len activities) as [e | [| n]]; try reflexivity.
  simpl. destruct (Py.index activities _); reflexivity.
Qed.

Lemma load_internal_settings_file path w text :
  path ≠ "" → files w !! path = Some (RegularFile text) →
  load_internal_settings json_loads path w = (json_loads text, w, []).
Proof.
  intros Hne Hfile. rewrite load_internal_settings_run, Hfile.
  apply String.eqb_neq in Hne. rewrite Hne. reflexivity.
Qed.

End Settings.

Lemma choice_list (activities : list pyval) (w : World) :
  activities ≠ [] →
  ∃ chosen,
    chosen ∈ activities ∧
    choice (PyList activities) w =
      (inr chosen, with_picks (tl (picks w)) w, []).
Proof.
  intros Hne. unfold choice.
  destruct activities as [| a rest]; [congruence |].
  cbn [Py.len length Py.index].
  set (i := (hd 0%nat (picks w) mod S (length rest))%nat).
  assert (Hi : (i < S (length rest))%nat).
  { subst i. apply Nat.mod_upper_bound. lia. }
  destruct (lookup_lt_is_Some_2 (a :: rest) i Hi) as [x Hx].
  exists x. split.
  - eapply list_elem_of_lookup_2, Hx.
  - rewrite Hx. reflexivity.
Qed.

(** C2. For a settings file that decodes to a mapping with the keys
    [ADM_ID] (a list whose entries [int] converts, whatever the built-in's
    reading of strings), [TOKEN] and [Activities] (a non-empty list),
    [set_internal_settings] returns normally, the admin ID list is the list
    of the conversions, in order, the token is the value of [TOKEN], and
    the activity string is one of the elements of [Activities]. *)
Theorem set_internal_settings_valid
    (json_loads : string → exn + pyval)
    (int_of_str : string → option Z) (w : World) (path text : string)
    (cfg : pydict pyval) (entries : list pyval) (ids : list Z)
    (token : pyval) (activities : list pyval) :
  path ≠ "" →
  files w !! path = Some (RegularFile text) →
  json_loads text = inr (PyDict cfg) →
  dict_get cfg "ADM_ID" = Some (PyList entries) →
  Forall2 (λ v z, Py.int int_of_str v = inr z) entries ids →
  dict_get cfg "TOKEN" = Some token →
  dict_get cfg "Activities" = Some (PyList activities) →
  activities ≠ [] →
  let o := set_internal_settings json_loads int_of_str path w in
  result o = inr tt ∧
  _admins_id (self (world_after o)) = ids ∧
  _token (self (world_after o)) = token ∧
  _activity_str (self (world_after o)) ∈ activities.
Proof.
  intros Hpath Hfile Hjson Hadm Hids Htoken Hact Hne. cbv zeta.
  assert (Hload : load_internal_settings json_loads path w
                  = (inr (PyDict cfg), w, [])).
  { rewrite (load_internal_settings_file json_loads path w text Hpath Hfile).
    rewrite Hjson. reflexivity. }
  rewrite (set_internal_settings_mapping json_loads int_of_str path w cfg Hload).
  cbv zeta. rewrite Hadm. unfold Py.int_list. cbn [Py.iter].
  apply map_list_Forall2 in Hids. rewrite Hids, Htoken, Hact.
  match goal with
  | |- context [choice (PyList activities) ?w2] =>
      destruct (choice_list activities w2 Hne) as (chosen & Hin & Hchoice);
      rewrite Hchoice
  end.
  unfold result, world_after. simpl. split_and!; try reflexivity. exact Hin.
Qed.

Lemma set_internal_settings_valid_witness :
  files (Sample.world Sample.fresh) !! "internal_settings.json"
    = Some (RegularFile Sample.good_text) ∧
  Sample.loads Sample.good_text = inr (PyDict Sample.good_cfg) ∧
  _admins_id
    (self (world_after
       (set_internal_settings Sample.loads Sample.int_of_str "internal_settings.json"
          (Sample.world Sample.fresh))))
  = [12; 5].
Proof.
  assert (Hfile : files (Sample.world Sample.fresh) !! "internal_settings.json"
                  = Some (RegularFile Sample.good_text)) by reflexivity.
  assert (Hjson : Sample.loads Sample.good_text = inr (PyDict Sample.good_cfg))
    by reflexivity.
  split; [exact Hfile |]. split; [exact Hjson |].
  refine (proj1 (proj2
    (set_internal_settings_valid Sample.loads Sample.int_of_str (Sample.world Sample.fresh)
       "internal_settings.json" Sample.good_text Sample.good_cfg
       [PyStr "12"; PyInt 5] [12; 5] (PyStr "secret")
       [PyStr "chess"; PyStr "go"] _ Hfile Hjson eq_refl _ eq_refl eq_refl _))).
  - discriminate.
  - repeat constructor.
  - discriminate.
Defined.

(** The claim C3 fails at the empty path: [load_internal_settings] returns
    [None] there without logging anything. *)
Lemma empty_path_not_logged :
  result (load_internal_settings Sample.loads "" (Sample.world Sample.fresh))
    = inr PyNone ∧
  ¬ logged
      (calls (load_internal_settings Sample.loads ""
                (Sample.world Sample.fresh))).
Proof.
  split; [reflexivity |].
  intros (origin & message & H). simpl in H. apply elem_of_nil in H. exact H.
Qed.

(** C3, amended. For a path that is empty or at which nothing exists,
    [load_internal_settings] returns [None] and changes nothing; it logs
    its failure message when the path is not empty and nothing when it is.
    [set_internal_settings] then returns normally, logs that it failed to
    set the definitions, and leaves the world, hence the admin ID list, the
    token and the activity string, as they were. *)
Theorem settings_absent_leave_fields
    (json_loads : string → exn + pyval)
    (int_of_str : string → option Z) (w : World) (path : string) :
  path = "" ∨ files w !! path = None →
  let o := load_internal_settings json_loads path w in
  let o' := set_internal_settings json_loads int_of_str path w in
  result o = inr PyNone ∧
  world_after o = w ∧
  calls o =
    (if String.eqb path "" then []
     else [Print "Bot" loading_failed_message]) ∧
  result o' = inr tt ∧
  calls o' =
    (Print "Bot" "Loading internal definitions" :: calls o ++
     [Print "Bot" "Failed set internal definitions"])%list ∧
  world_after o' = w ∧
  _admins_id (self (world_after o')) = _admins_id (self w) ∧
  _token (self (world_after o')) = _token (self w) ∧
  _activity_str (self (world_after o')) = _activity_str (self w).
Proof.
  intros Hpath. cbv zeta.
  assert (Hload : load_internal_settings json_loads path w =
    (inr PyNone, w,
     if String.eqb path "" then [] else [Print "Bot" loading_failed_message])).
  { rewrite load_internal_settings_run.
    destruct (String.eqb path "") eqn:Hempty; [reflexivity |].
    destruct Hpath as [-> | ->]; [discriminate Hempty | reflexivity]. }
  rewrite (set_internal_settings_absent json_loads int_of_str path w _ Hload), Hload.
  split_and!; reflexivity.
Qed.

Lemma settings_absent_leave_fields_witness :
  files (Sample.world Sample.configured) !! "nowhere.json" = None ∧
  calls (load_internal_settings Sample.loads "nowhere.json"
           (Sample.world Sample.configured))
    = [Print "Bot" loading_failed_message] ∧
  _token (self (world_after
     (set_internal_settings Sample.loads Sample.int_of_str "nowhere.json"
        (Sample.world Sample.configured))))
    = PyStr "secret".
Proof.
  assert (Hfile : files (Sample.world Sample.configured) !! "nowhere.json" = None)
    by reflexivity.
  pose proof (settings_absent_leave_fields Sample.loads Sample.int_of_str
                (Sample.world Sample.configured) "nowhere.json"
                (or_intror Hfile)) as H.
  cbv zeta in H. destruct H as (_ & _ & Hcalls & _ & _ & _ & _ & Htoken & _).
  split; [exact Hfile |]. split; [exact Hcalls | exact Htoken].
Defined.

(** The claim C7 fails on a mapping that lacks [TOKEN] and [Activities] and
    whose [ADM_ID] entry is not a numeral: the conversion raises
    [ValueError] before any missing key is looked up. *)
Lemma missing_key_conversion_first :
  files (Sample.world Sample.fresh) !! "bad.json"
    = Some (RegularFile Sample.bad_text) ∧
  Sample.loads Sample.bad_text = inr (PyDict Sample.bad_cfg) ∧
  dict_get Sample.bad_cfg "TOKEN" = None ∧
  result (set_internal_settings Sample.loads Sample.int_of_str "bad.json"
            (Sample.world Sample.fresh))
    = inl ValueError ∧
  ¬ is_key_error ValueError.
Proof.
  split_and!; try reflexivity. intros [key H]. discriminate H.
Qed.

(** C7, amended. For a settings file that decodes to a mapping lacking at
    least one of [ADM_ID], [TOKEN] and [Activities], [set_internal_settings]
    raises: it never returns normally and logs nothing after its opening
    line.  The exception is the [KeyError] of a missing key whenever
    [ADM_ID] is missing or converts; when [ADM_ID] is present and its
    conversion raises, that conversion error escapes instead, and it is not
    a key-lookup failure. *)
Theorem set_internal_settings_missing_key
    (json_loads : string → exn + pyval)
    (int_of_str : string → option Z) (w : World) (path text : string)
    (cfg : pydict pyval) :
  path ≠ "" →
  files w !! path = Some (RegularFile text) →
  json_loads text = inr (PyDict cfg) →
  dict_get cfg "ADM_ID" = None ∨ dict_get cfg "TOKEN" = None
    ∨ dict_get cfg "Activities" = None →
  let o := set_internal_settings json_loads int_of_str path w in
  (∃ e, result o = inl e ∧ (is_key_error e ∨ conversion_error e)) ∧
  calls o = [Print "Bot" "Loading internal definitions"] ∧
  (dict_get cfg "ADM_ID" = None
     ∨ (∃ adm ids, dict_get cfg "ADM_ID" = Some adm ∧ Py.int_list int_of_str adm = inr ids) →
   ∃ key,
     (key = "ADM_ID" ∨ key = "TOKEN" ∨ key = "Activities") ∧
     dict_get cfg key = None ∧
     result o = inl (KeyError (PyStr key))) ∧
  (∀ adm e,
     dict_get cfg "ADM_ID" = Some adm → Py.int_list int_of_str adm = inl e →
     result o = inl e ∧ ¬ is_key_error e).
Proof.
  intros Hpath Hfile Hjson Hmissing. cbv zeta.
  assert (Hload : load_internal_settings json_loads path w
                  = (inr (PyDict cfg), w, [])).
  { rewrite (load_internal_settings_file json_loads path w text Hpath Hfile).
    rewrite Hjson. reflexivity. }
  rewrite (set_internal_settings_mapping json_loads int_of_str path w cfg Hload).
  cbv zeta.
  destruct (dict_get cfg "ADM_ID") as [adm |] eqn:Hadm.
  - destruct (Py.int_list int_of_str adm) as [e | ids] eqn:Hconv.
    + split_and!.
      * exists e. split; [reflexivity |]. right. eapply int_list_error, Hconv.
      * reflexivity.
      * intros [H | (adm' & ids & Hadm' & Hids)]; [discriminate H |].
        injection Hadm' as <-. rewrite Hconv in Hids. discriminate Hids.
      * intros adm' e' Hadm' He'. injection Hadm' as <-.
        rewrite Hconv in He'. injection He' as <-.
        split; [reflexivity |].
        eapply conversion_error_not_key, int_list_error, Hconv.
    + destruct (dict_get cfg "TOKEN") as [token |] eqn:Htoken.
      * destruct (dict_get cfg "Activities") as [activities |] eqn:Hact.
        { destruct Hmissing as [H | [H | H]]; discriminate H. }
        split_and!.
        -- eexists. split; [reflexivity |]. left. eexists. reflexivity.
        -- reflexivity.
        -- intros _. exists "Activities". split_and!; auto.
        -- intros adm' e' Hadm' He'. injection Hadm' as <-.
           rewrite Hconv in He'. discriminate He'.
      * split_and!.
        -- eexists. split; [reflexivity |]. left. eexists. reflexivity.
        -- reflexivity.
        -- intros _. exists "TOKEN". split_and!; auto.
        -- intros adm' e' Hadm' He'. injection Hadm' as <-.
           rewrite Hconv in He'. discriminate He'.
  - split_and!.
    + eexists. split; [reflexivity |]. left. eexists. reflexivity.
    + reflexivity.
    + intros _. exists "ADM_ID". split_and!; auto.
    + intros adm e H. discriminate H.
Qed.

Lemma set_internal_settings_missing_key_witness :
  files (Sample.world Sample.fresh) !! "short.json"
    = Some (RegularFile Sample.short_text) ∧
  Sample.loads Sample.short_text = inr (PyDict Sample.short_cfg) ∧
  dict_get Sample.short_cfg "Activities" = None ∧
  calls (set_internal_settings Sample.loads Sample.int_of_str "short.json"
           (Sample.world Sample.fresh))
    = [Print "Bot" "Loading internal definitions"].
Proof.
  assert (Hfile : files (Sample.world Sample.fresh) !! "short.json"
                  = Some (RegularFile Sample.short_text)) by reflexivity.
  assert (Hjson : Sample.loads Sample.short_text = inr (PyDict Sample.short_cfg))
    by reflexivity.
  split_and!; [exact Hfile | exact Hjson | reflexivity |].
  refine (proj1 (proj2
    (set_internal_settings_missing_key Sample.loads Sample.int_of_str (Sample.world Sample.fresh)
       "short.json" Sample.short_text Sample.short_cfg _ Hfile Hjson
       (or_intror (or_intror eq_refl))))).
  discriminate.
Defined.

(** * Further properties of the code *)

(** ** Saving when a persistence call raises *)

Lemma save_each_unchanged gs w : world_after (save_each gs w) = w.
Proof.
  induction gs as [| g gs IH]; [reflexivity |].
  simpl. unfold bind. rewrite write_settings_run, write_data_run.
  destruct (write_settings_failure g); [reflexivity |].
  destruct (write_data_failure g); [reflexivity |].
  unfold world_after in *. destruct (save_each gs w) as [[r w'] t]. exact IH.
Qed.

Lemma save_each_after_saved done gs w :
  Forall persists done →
  save_each (done ++ gs) w =
    (result (save_each gs w), world_after (save_each gs w),
     (full_save done ++ calls (save_each gs w))%list).
Proof.
  induction 1 as [| g done [Hs Hd] _ IH]; simpl.
  - destruct (save_each gs w) as [[r w'] t]. reflexivity.
  - unfold bind. rewrite write_settings_run, write_data_run, Hs, Hd, IH.
    reflexivity.
Qed.

Lemma save_each_failing g rest w e :
  save_failure g = Some e →
  save_each (g :: rest) w = (inl e, w, failed_save g).
Proof.
  unfold save_failure, failed_save. intros He. simpl. unfold bind.
  rewrite write_settings_run, write_data_run.
  destruct (write_settings_failure g) as [e' |].
  - injection He as <-. reflexivity.
  - rewrite He. reflexivity.
Qed.

(** X1. [save_all_guilds] stops at the first guild whose save raises: the
    guilds before it are saved in full, the failing guild receives
    [write_settings] (and [write_data] when it is that call which raises),
    the exception escapes, and no later guild of the registry is touched.
    The bot is left unchanged. *)
Theorem save_all_guilds_stops_at_failure
    (w : World) (done rest : list Guild) (g : Guild) (e : exn) :
  dict_values (_custom_guilds (self w)) = (done ++ g :: rest)%list →
  Forall persists done →
  save_failure g = Some e →
  save_all_guilds w =
    (inl e, w, (full_save done ++ failed_save g)%list).
Proof.
  intros Hreg Hdone Hfail.
  rewrite save_all_guilds_run, Hreg, (save_each_after_saved done _ w Hdone).
  rewrite (save_each_failing g rest w e Hfail). reflexivity.
Qed.

Lemma save_all_guilds_stops_at_failure_witness :
  save_failure Faulty.no_settings = Some (ExternalError "disk") ∧
  save_all_guilds (Faulty.world Faulty.bot) =
    (inl (ExternalError "disk"), Faulty.world Faulty.bot,
     [WriteSettings 1; WriteData 1; WriteSettings 3]).
Proof.
  split; [reflexivity |].
  apply (save_all_guilds_stops_at_failure (Faulty.world Faulty.bot)
           [Sample.guild_a] [Sample.guild_b] Faulty.no_settings).
  - reflexivity.
  - repeat constructor.
  - reflexivity.
Defined.

(** X2. [save_guild] on a registered guild whose save raises lets the
    exception escape: when [write_settings] raises, [write_data] is never
    called; when [write_data] raises, both calls were made.  The bot is left
    unchanged. *)
Theorem save_guild_propagates
    (w : World) (guild_id : Z) (g : Guild) (e : exn) :
  dict_get (_custom_guilds (self w)) (pretty guild_id) = Some g →
  save_failure g = Some e →
  save_guild guild_id w = (inl e, w, failed_save g) ∧
  (write_settings_failure g ≠ None →
   count_calls (is_write_data_on (guild_ref g))
     (calls (save_guild guild_id w)) = 0%nat).
Proof.
  intros Hg Hfail. rewrite save_guild_run, Hg.
  unfold save_failure, failed_save in *.
  destruct (write_settings_failure g) as [e' |].
  - injection Hfail as <-. split; [reflexivity |]. intros _. reflexivity.
  - rewrite Hfail. split; [reflexivity |]. intros H. destruct H. reflexivity.
Qed.

Lemma save_guild_propagates_witness :
  dict_get (_custom_guilds (self (Faulty.world Faulty.bot))) (pretty 300)
    = Some Faulty.no_settings ∧
  save_guild 300 (Faulty.world Faulty.bot) =
    (inl (ExternalError "disk"), Faulty.world Faulty.bot, [WriteSettings 3]).
Proof.
  split; [reflexivity |].
  exact (proj1 (save_guild_propagates (Faulty.world Faulty.bot) 300
                  Faulty.no_settings (ExternalError "disk") eq_refl eq_refl)).
Defined.

Lemma paired_no_print t : paired t → count_calls is_print t = 0%nat.
Proof.
  induction 1 as [| ref | ref t _ IH]; try reflexivity.
  rewrite !count_calls_cons. exact IH.
Qed.

(** X3. The autosave body [save] logs exactly one line, first, and then
    does what [save_all_guilds] does, ending as it ends: an exception of a
    guild's persistence call escapes the autosave run as well.  It never
    changes the bot. *)
Theorem save_logs_then_saves (w : World) :
  save w =
    (result (save_all_guilds w), w,
     Print "Bot" "Saving all guilds automatically"
       :: calls (save_all_guilds w)) ∧
  count_calls is_print (calls (save w)) = 1%nat ∧
  paired (List.filter is_persistence (calls (save w))).
Proof.
  assert (Hrun : save w =
    (result (save_all_guilds w), w,
     Print "Bot" "Saving all guilds automatically"
       :: calls (save_all_guilds w))).
  { unfold save, bind, log, emit.
    pose proof (save_each_unchanged
                  (dict_values (_custom_guilds (self w))) w) as Hw.
    rewrite <- save_all_guilds_run in Hw.
    unfold result, world_after, calls in *.
    destruct (save_all_guilds w) as [[r w'] t]. simpl in *. subst w'.
    reflexivity. }
  assert (Hp : paired (calls (save_all_guilds w))).
  { rewrite save_all_guilds_run. apply save_each_paired. }
  rewrite Hrun. split; [reflexivity |]. unfold calls at 1 3. simpl. split.
  - rewrite count_calls_cons. simpl. rewrite (paired_no_print _ Hp).
    reflexivity.
  - clear Hrun. induction Hp as [| ref | ref t _ IH]; simpl;
      try constructor. exact IH.
Qed.

(** ** Guilds registered under their identifiers *)

Lemma dict_get_registry_of (entries : list (Z * Guild)) (guild_id : Z) (g : Guild) :
  NoDup (map fst entries) →
  (guild_id, g) ∈ entries →
  dict_get (registry_of entries) (pretty guild_id) = Some g.
Proof.
  induction entries as [| [id' g'] entries IH]; intros Hnd Hin.
  - apply elem_of_nil in Hin. destruct Hin.
  - simpl in Hnd. apply NoDup_cons in Hnd as [Hfresh Hnd]. simpl.
    apply elem_of_cons in Hin as [Heq | Hin].
    + injection Heq as <- <-. rewrite String.eqb_refl. reflexivity.
    + assert (Hne : id' ≠ guild_id).
      { intros ->. apply Hfresh. apply list_elem_of_fmap.
        exists (guild_id, g). split; [reflexivity | exact Hin]. }
      assert (Hkeys : String.eqb (pretty id') (pretty guild_id) = false).
      { apply String.eqb_neq. intros Heq. apply Hne.
        apply (inj pretty). exact Heq. }
      rewrite Hkeys. apply IH; assumption.
Qed.

Lemma dict_get_registry_of_missing (entries : list (Z * Guild)) (guild_id : Z) :
  guild_id ∉ map fst entries →
  dict_get (registry_of entries) (pretty guild_id) = None.
Proof.
  induction entries as [| [id' g'] entries IH]; intros Hout; [reflexivity |].
  simpl in *. apply not_elem_of_cons in Hout as [Hne Hout].
  assert (Hkeys : String.eqb (pretty id') (pretty guild_id) = false).
  { apply String.eqb_neq. intros Heq. apply Hne. symmetry.
    apply (inj pretty). exact Heq. }
  rewrite Hkeys. apply IH, Hout.
Qed.

(** X4. When each guild is registered under the decimal string of its own
    identifier, identifiers being distinct, [get_custom_guild] returns for
    a registered identifier the guild registered under it, never another
    one, and raises [KeyError] with the identifier's string for any other
    identifier; in both cases it changes nothing and calls nothing. *)
Theorem get_custom_guild_lookup
    (w : World) (entries : list (Z * Guild)) (guild_id : Z) :
  _custom_guilds (self w) = registry_of entries →
  NoDup (map fst entries) →
  (∀ g, (guild_id, g) ∈ entries →
        get_custom_guild guild_id w = (inr g, w, [])) ∧
  (guild_id ∉ map fst entries →
   get_custom_guild guild_id w
     = (inl (KeyError (PyStr (pretty guild_id))), w, [])).
Proof.
  intros Hreg Hnd. unfold get_custom_guild.
  rewrite custom_guilds_getitem_run, Hreg. split.
  - intros g Hin. rewrite (dict_get_registry_of entries guild_id g Hnd Hin).
    reflexivity.
  - intros Hout. rewrite (dict_get_registry_of_missing entries guild_id Hout).
    reflexivity.
Qed.

Lemma get_custom_guild_lookup_witness :
  _custom_guilds (self (Sample.world Sample.configured))
    = registry_of [(100, Sample.guild_a); (200, Sample.guild_b)] ∧
  get_custom_guild 200 (Sample.world Sample.configured)
    = (inr Sample.guild_b, Sample.world Sample.configured, []).
Proof.
  assert (Hnd : NoDup (map fst [(100, Sample.guild_a); (200, Sample.guild_b)])).
  { simpl. repeat constructor; intros H;
      repeat (apply elem_of_cons in H as [H | H]; [discriminate H |]);
      apply elem_of_nil in H; exact H. }
  split; [reflexivity |].
  apply (proj1 (get_custom_guild_lookup (Sample.world Sample.configured)
                  [(100, Sample.guild_a); (200, Sample.guild_b)] 200
                  eq_refl Hnd)).
  apply list_elem_of_further, list_elem_of_here.
Defined.

Lemma full_save_concat (gs : list Guild) :
  full_save gs =
    concat (map (λ g, [WriteSettings (guild_ref g); WriteData (guild_ref g)]) gs).
Proof.
  induction gs as [| g gs IH]; [reflexivity |].
  unfold full_save in *. simpl. rewrite IH. reflexivity.
Qed.

(** X5. With guilds registered under the decimal strings of distinct
    identifiers and persistence calls that return, [save_all_guilds] makes
    the calls of [save_guild] for each registered identifier in turn, in
    registry order, and nothing else. *)
Theorem save_all_guilds_as_save_guild
    (w : World) (entries : list (Z * Guild)) :
  _custom_guilds (self w) = registry_of entries →
  NoDup (map fst entries) →
  Forall persists (map snd entries) →
  result (save_all_guilds w) = inr tt ∧
  calls (save_all_guilds w) =
    concat (map (λ entry, calls (save_guild entry.1 w)) entries).
Proof.
  intros Hreg Hnd Hok.
  assert (Hvalues : dict_values (_custom_guilds (self w)) = map snd entries).
  { rewrite Hreg. unfold dict_values, registry_of. rewrite map_map.
    reflexivity. }
  rewrite save_all_guilds_run, Hvalues, (save_each_run _ w Hok).
  split; [reflexivity |]. unfold calls at 1. simpl.
  rewrite full_save_concat, map_map. f_equal.
  apply map_ext_in. intros [id g] Hin. simpl.
  apply list_elem_of_In in Hin.
  rewrite save_guild_run, Hreg, (dict_get_registry_of entries id g Hnd Hin).
  assert (Hg : persists g).
  { rewrite Forall_forall in Hok. apply Hok.
    apply list_elem_of_fmap. exists (id, g). split; [reflexivity | exact Hin]. }
  destruct Hg as [Hs Hd]. rewrite Hs, Hd. reflexivity.
Qed.

Lemma save_all_guilds_as_save_guild_witness :
  _custom_guilds (self (Sample.world Sample.configured))
    = registry_of [(100, Sample.guild_a); (200, Sample.guild_b)] ∧
  calls (save_all_guilds (Sample.world Sample.configured)) =
    (calls (save_guild 100 (Sample.world Sample.configured)) ++
     calls (save_guild 200 (Sample.world Sample.configured)))%list.
Proof.
  assert (Hnd : NoDup (map fst [(100, Sample.guild_a); (200, Sample.guild_b)])).
  { simpl. repeat constructor; intros H;
      repeat (apply elem_of_cons in H as [H | H]; [discriminate H |]);
      apply elem_of_nil in H; exact H. }
  split; [reflexivity |].
  refine (proj2 (save_all_guilds_as_save_guild (Sample.world Sample.configured)
                   [(100, Sample.guild_a); (200, Sample.guild_b)]
                   eq_refl Hnd _)).
  repeat constructor.
Defined.

(** ** Construction and the settings file *)

Lemma init_run json_loads int_of_str name settings_file version w :
  init json_loads int_of_str name settings_file version w =
    let o := set_internal_settings json_loads int_of_str settings_file
               (with_self (new_bot name version) w) in
    (result o, world_after o,
     Print "Bot" ("Initializing " +:+ name +:+ " " +:+ version)
       :: Print "Bot" "Initializing the RNG" :: calls o).
Proof.
  unfold init, bind, update_self, log, emit. cbv zeta.
  change (with_self _ w) with (with_self (new_bot name version) w).
  destruct (set_internal_settings json_loads int_of_str settings_file
              (with_self (new_bot name version) w)) as [[r w'] t].
  reflexivity.
Qed.

Lemma calls_after_emit {A} (e : event) (k : unit → M A) (w : World) :
  calls (bind (emit e) k w) = e :: calls (k tt w).
Proof.
  unfold bind, emit, calls. destruct (k tt w) as [[r w'] t]. reflexivity.
Qed.

Lemma set_internal_settings_opening json_loads int_of_str path w :
  ∃ rest,
    calls (set_internal_settings json_loads int_of_str path w)
      = Print "Bot" "Loading internal definitions" :: rest.
Proof.
  unfold set_internal_settings, log. rewrite calls_after_emit.
  eexists. reflexivity.
Qed.

Lemma run_run {A} (super_run : list pyval → pydict pyval → M A) args kwargs w :
  run super_run args kwargs w =
    super_run (args ++ [_token (self w)])%list kwargs w.
Proof.
  unfold run, bind, get_self.
  destruct (super_run (args ++ [_token (self w)])%list kwargs w) as [[r w'] t].
  reflexivity.
Qed.

(** X6. Whatever the settings file holds, and also when reading it raises,
    [__init__] leaves a bot with the given name and version, the flag
    false, no guild registered and no user; what the world's bot was before
    plays no part.  Its first three log lines are always the same. *)
Theorem init_identity
    (json_loads : string → exn + pyval)
    (int_of_str : string → option Z)
    (name settings_file version : string) (w : World) :
  let o := init json_loads int_of_str name settings_file version w in
  _name (self (world_after o)) = name ∧
  _version (self (world_after o)) = version ∧
  _custom_ready (self (world_after o)) = false ∧
  _custom_guilds (self (world_after o)) = [] ∧
  user (self (world_after o)) = None ∧
  ∃ rest,
    calls o =
      Print "Bot" ("Initializing " +:+ name +:+ " " +:+ version)
        :: Print "Bot" "Initializing the RNG"
        :: Print "Bot" "Loading internal definitions" :: rest.
Proof.
  cbv zeta. rewrite init_run. cbv zeta. unfold world_after at 1 2 3 4 5.
  unfold calls at 1. simpl.
  pose proof (set_internal_settings_keeps json_loads int_of_str
    (λ b, _name b = name ∧ _version b = version ∧ _custom_ready b = false
          ∧ _custom_guilds b = [] ∧ user b = None) settings_file) as Hkeep.
  destruct (Hkeep (λ _ b H, H) (λ _ b H, H) (λ _ b H, H)
              (with_self (new_bot name version) w))
    as (Hn & Hv & Hr & Hg & Hu).
  { split_and!; reflexivity. }
  destruct (set_internal_settings_opening json_loads int_of_str settings_file
              (with_self (new_bot name version) w)) as [rest Hrest].
  split_and!; try assumption.
  exists rest. rewrite Hrest. reflexivity.
Qed.

(** X7. Constructed with an empty path or a path at which nothing exists,
    the bot comes up with its defaults and [__init__] returns normally: no
    identifier is an administrator, and [run] hands the framework the
    caller's positional arguments followed by the empty string as token. *)
Theorem init_without_settings
    {A} (json_loads : string → exn + pyval)
    (int_of_str : string → option Z)
    (super_run : list pyval → pydict pyval → M A)
    (name path version : string) (w : World)
    (args : list pyval) (kwargs : pydict pyval) :
  path = "" ∨ files w !! path = None →
  let o := init json_loads int_of_str name path version w in
  result o = inr tt ∧
  self (world_after o) = new_bot name version ∧
  (∀ author_id, result (is_admin author_id (world_after o)) = inr false) ∧
  run super_run args kwargs (world_after o) =
    super_run (args ++ [PyStr ""])%list kwargs (world_after o).
Proof.
  intros Hpath. cbv zeta. rewrite init_run. cbv zeta.
  assert (Hload : load_internal_settings json_loads path
                    (with_self (new_bot name version) w) =
    (inr PyNone, with_self (new_bot name version) w,
     if String.eqb path "" then [] else [Print "Bot" loading_failed_message])).
  { rewrite load_internal_settings_run.
    destruct (String.eqb path "") eqn:Hempty; [reflexivity |].
    destruct Hpath as [-> | Hnone]; [discriminate Hempty |].
    simpl. rewrite Hnone. reflexivity. }
  rewrite (set_internal_settings_absent json_loads int_of_str path _ _ Hload).
  unfold result, world_after. simpl. split_and!.
  - reflexivity.
  - reflexivity.
  - intros author_id. reflexivity.
  - rewrite run_run. reflexivity.
Qed.

Lemma init_without_settings_witness :
  files (Sample.world Sample.configured) !! "nowhere.json" = None ∧
  result
    (run Faulty.echo_run [PyStr "reconnect"] []
       (world_after
          (init Sample.loads Sample.int_of_str "Bot" "nowhere.json" "1.0"
             (Sample.world Sample.configured))))
  = inr [PyStr "reconnect"; PyStr ""].
Proof.
  assert (Hfile : files (Sample.world Sample.configured) !! "nowhere.json" = None)
    by reflexivity.
  split; [exact Hfile |].
  pose proof (init_without_settings Sample.loads Sample.int_of_str Faulty.echo_run
                "Bot" "nowhere.json" "1.0" (Sample.world Sample.configured)
                [PyStr "reconnect"] [] (or_intror Hfile)) as H.
  cbv zeta in H. destruct H as (_ & _ & _ & Hrun).
  rewrite Hrun. reflexivity.
Defined.

Lemma load_internal_settings_decoded json_loads path w text v :
  path ≠ "" →
  files w !! path = Some (RegularFile text) →
  json_loads text = inr v →
  load_internal_settings json_loads path w = (inr v, w, []).
Proof.
  intros Hpath Hfile Hjson.
  rewrite (load_internal_settings_file json_loads path w text Hpath Hfile).
  rewrite Hjson. reflexivity.
Qed.

(** X8. Constructed with a well-formed settings file, the bot's
    administrators are exactly the integers the [ADM_ID] entries convert
    to, [run] hands the framework the caller's arguments followed by the
    value of [TOKEN], the activity is one of [Activities], and the files
    are as they were. *)
Theorem init_with_settings
    {A} (json_loads : string → exn + pyval)
    (int_of_str : string → option Z)
    (super_run : list pyval → pydict pyval → M A)
    (name path version text : string) (w : World)
    (cfg : pydict pyval) (entries : list pyval) (ids : list Z)
    (token : pyval) (activities : list pyval)
    (args : list pyval) (kwargs : pydict pyval) :
  path ≠ "" →
  files w !! path = Some (RegularFile text) →
  json_loads text = inr (PyDict cfg) →
  dict_get cfg "ADM_ID" = Some (PyList entries) →
  Forall2 (λ v z, Py.int int_of_str v = inr z) entries ids →
  dict_get cfg "TOKEN" = Some token →
  dict_get cfg "Activities" = Some (PyList activities) →
  activities ≠ [] →
  let o := init json_loads int_of_str name path version w in
  result o = inr tt ∧
  (∀ author_id,
     result (is_admin author_id (world_after o))
       = inr (bool_decide (author_id ∈ ids))) ∧
  run super_run args kwargs (world_after o) =
    super_run (args ++ [token])%list kwargs (world_after o) ∧
  _activity_str (self (world_after o)) ∈ activities ∧
  files (world_after o) = files w.
Proof.
  intros Hpath Hfile Hjson Hadm Hids Htoken Hact Hne. cbv zeta.
  rewrite init_run. cbv zeta.
  rewrite (set_internal_settings_mapping json_loads int_of_str path _ cfg
             (load_internal_settings_decoded json_loads path
                (with_self (new_bot name version) w) text (PyDict cfg)
                Hpath Hfile Hjson)).
  cbv zeta. rewrite Hadm. unfold Py.int_list. cbn [Py.iter].
  apply map_list_Forall2 in Hids. rewrite Hids, Htoken, Hact.
  match goal with
  | |- context [choice (PyList activities) ?w2] =>
      destruct (choice_list activities w2 Hne) as (chosen & Hin & Hchoice);
      rewrite Hchoice
  end.
  unfold result, world_after. simpl. split_and!; try reflexivity.
  - rewrite run_run. reflexivity.
  - exact Hin.
Qed.

Lemma init_with_settings_witness :
  files (Sample.world Sample.fresh) !! "internal_settings.json"
    = Some (RegularFile Sample.good_text) ∧
  result
    (is_admin 12
       (world_after
          (init Sample.loads Sample.int_of_str "Bot" "internal_settings.json" "1.0"
             (Sample.world Sample.fresh))))
  = inr true.
Proof.
  assert (Hfile : files (Sample.world Sample.fresh) !! "internal_settings.json"
                  = Some (RegularFile Sample.good_text)) by reflexivity.
  split; [exact Hfile |].
  refine (proj1 (proj2
    (init_with_settings Sample.loads Sample.int_of_str Faulty.echo_run "Bot"
       "internal_settings.json" "1.0" Sample.good_text
       (Sample.world Sample.fresh) Sample.good_cfg
       [PyStr "12"; PyInt 5] [12; 5] (PyStr "secret")
       [PyStr "chess"; PyStr "go"] [] [] _ Hfile eq_refl eq_refl _
       eq_refl eq_refl _)) 12).
  - discriminate.
  - repeat constructor.
  - discriminate.
Defined.

(** X9. [set_internal_settings] is not all-or-nothing.  When the mapping
    has a convertible [ADM_ID] but lacks [TOKEN] or [Activities], the
    [KeyError] escapes after the admin ID list has been replaced, and after
    the token has been replaced too when [TOKEN] is there; the activity
    string keeps its value and [random.choice] has not been reached. *)
Theorem set_internal_settings_partial
    (json_loads : string → exn + pyval)
    (int_of_str : string → option Z) (w : World) (path text : string)
    (cfg : pydict pyval) (adm : pyval) (ids : list Z) :
  path ≠ "" →
  files w !! path = Some (RegularFile text) →
  json_loads text = inr (PyDict cfg) →
  dict_get cfg "ADM_ID" = Some adm →
  Py.int_list int_of_str adm = inr ids →
  dict_get cfg "TOKEN" = None ∨ dict_get cfg "Activities" = None →
  let o := set_internal_settings json_loads int_of_str path w in
  (∃ key, result o = inl (KeyError (PyStr key))) ∧
  _admins_id (self (world_after o)) = ids ∧
  _token (self (world_after o)) =
    match dict_get cfg "TOKEN" with
    | Some token => token
    | None => _token (self w)
    end ∧
  _activity_str (self (world_after o)) = _activity_str (self w) ∧
  picks (world_after o) = picks w.
Proof.
  intros Hpath Hfile Hjson Hadm Hids Hmissing. cbv zeta.
  rewrite (set_internal_settings_mapping json_loads int_of_str path w cfg
             (load_internal_settings_decoded json_loads path w text
                (PyDict cfg) Hpath Hfile Hjson)).
  cbv zeta. rewrite Hadm, Hids.
  destruct (dict_get cfg "TOKEN") as [token |].
  - destruct (dict_get cfg "Activities") as [activities |].
    + destruct Hmissing as [H | H]; discriminate H.
    + unfold result, world_after. simpl.
      split_and!; try reflexivity. eexists. reflexivity.
  - unfold result, world_after. simpl.
    split_and!; try reflexivity. eexists. reflexivity.
Qed.

Lemma set_internal_settings_partial_witness :
  files (Sample.world Sample.configured) !! "short.json"
    = Some (RegularFile Sample.short_text) ∧
  _admins_id (self (Sample.world Sample.configured)) = [12; 5] ∧
  _admins_id
    (self (world_after
       (set_internal_settings Sample.loads Sample.int_of_str "short.json"
          (Sample.world Sample.configured))))
  = [7].
Proof.
  assert (Hfile : files (Sample.world Sample.configured) !! "short.json"
                  = Some (RegularFile Sample.short_text)) by reflexivity.
  split; [exact Hfile |]. split; [reflexivity |].
  refine (proj1 (proj2
    (set_internal_settings_partial Sample.loads Sample.int_of_str (Sample.world Sample.configured)
       "short.json" Sample.short_text Sample.short_cfg (PyList [PyInt 7]) [7]
       _ Hfile eq_refl eq_refl eq_refl (or_intror eq_refl)))).
  discriminate.
Defined.

(** X10. A settings file that exists but does not give a mapping: when
    [json.loads] raises, the decoding error escapes [set_internal_settings];
    when the text decodes to [null], the file is treated as absent (the
    failure line is logged and the call returns); when it decodes to
    anything else that is not a mapping, subscripting it raises
    [TypeError].  In all three cases the world is left as it was. *)
Theorem set_internal_settings_not_a_mapping
    (json_loads : string → exn + pyval)
    (int_of_str : string → option Z) (w : World) (path text : string) :
  path ≠ "" →
  files w !! path = Some (RegularFile text) →
  match json_loads text with
  | inl e =>
      set_internal_settings json_loads int_of_str path w =
        (inl e, w, [Print "Bot" "Loading internal definitions"])
  | inr PyNone =>
      set_internal_settings json_loads int_of_str path w =
        (inr tt, w,
         [Print "Bot" "Loading internal definitions";
          Print "Bot" "Failed set internal definitions"])
  | inr (PyDict _) => True
  | inr _ =>
      set_internal_settings json_loads int_of_str path w =
        (inl TypeError, w, [Print "Bot" "Loading internal definitions"])
  end.
Proof.
  intros Hpath Hfile.
  pose proof (load_internal_settings_file json_loads path w text Hpath Hfile)
    as Hload.
  unfold set_internal_settings, bind, log, emit. rewrite Hload.
  destruct (json_loads text) as [e | []]; first [reflexivity | exact I].
Qed.

Lemma set_internal_settings_not_a_mapping_witness :
  files (Faulty.world Faulty.bot) !! "list.json"
    = Some (RegularFile Faulty.list_text) ∧
  set_internal_settings Faulty.loads Sample.int_of_str "list.json" (Faulty.world Faulty.bot) =
    (inl TypeError, Faulty.world Faulty.bot,
     [Print "Bot" "Loading internal definitions"]).
Proof.
  assert (Hfile : files (Faulty.world Faulty.bot) !! "list.json"
                  = Some (RegularFile Faulty.list_text)) by reflexivity.
  split; [exact Hfile |].
  refine (set_internal_settings_not_a_mapping Faulty.loads Sample.int_of_str
            (Faulty.world Faulty.bot) "list.json" Faulty.list_text _ Hfile).
  discriminate.
Defined.

(** X11. With [ADM_ID] and [TOKEN] in order but an empty list of
    [Activities], [random.choice] raises [IndexError]: it escapes after the
    admin ID list and the token have been replaced, and the activity string
    keeps its value. *)
Theorem set_internal_settings_no_activity
    (json_loads : string → exn + pyval)
    (int_of_str : string → option Z) (w : World) (path text : string)
    (cfg : pydict pyval) (adm : pyval) (ids : list Z) (token : pyval) :
  path ≠ "" →
  files w !! path = Some (RegularFile text) →
  json_loads text = inr (PyDict cfg) →
  dict_get cfg "ADM_ID" = Some adm →
  Py.int_list int_of_str adm = inr ids →
  dict_get cfg "TOKEN" = Some token →
  dict_get cfg "Activities" = Some (PyList []) →
  let o := set_internal_settings json_loads int_of_str path w in
  result o = inl IndexError ∧
  _admins_id (self (world_after o)) = ids ∧
  _token (self (world_after o)) = token ∧
  _activity_str (self (world_after o)) = _activity_str (self w).
Proof.
  intros Hpath Hfile Hjson Hadm Hids Htoken Hact. cbv zeta.
  rewrite (set_internal_settings_mapping json_loads int_of_str path w cfg
             (load_internal_settings_decoded json_loads path w text
                (PyDict cfg) Hpath Hfile Hjson)).
  cbv zeta. rewrite Hadm, Hids, Htoken, Hact. unfold choice.
  unfold result, world_after. simpl. split_and!; reflexivity.
Qed.

Lemma set_internal_settings_no_activity_witness :
  files (Faulty.world Faulty.bot) !! "idle.json"
    = Some (RegularFile Faulty.idle_text) ∧
  result (set_internal_settings Faulty.loads Sample.int_of_str "idle.json"
            (Faulty.world Faulty.bot))
  = inl IndexError.
Proof.
  assert (Hfile : files (Faulty.world Faulty.bot) !! "idle.json"
                  = Some (RegularFile Faulty.idle_text)) by reflexivity.
  split; [exact Hfile |].
  refine (proj1
    (set_internal_settings_no_activity Faulty.loads Sample.int_of_str (Faulty.world Faulty.bot)
       "idle.json" Faulty.idle_text Faulty.idle_cfg (PyList [PyInt 7]) [7]
       (PyStr "secret") _ Hfile eq_refl eq_refl eq_refl eq_refl eq_refl)).
  discriminate.
Defined.

(** ** What the operations never call *)

Section Never.

Variable p : event → bool.

Lemma never_ret {A} (a : A) : never_calls p (ret a).
Proof. intros w. reflexivity. Qed.

Lemma never_raise {A} (e : exn) : never_calls p (@raise A e).
Proof. intros w. reflexivity. Qed.

Lemma never_get_self : never_calls p get_self.
Proof. intros w. reflexivity. Qed.

Lemma never_update_self f : never_calls p (update_self f).
Proof. intros w. reflexivity. Qed.

Lemma never_lift {A} (r : exn + A) : never_calls p (lift r).
Proof. destruct r; intros w; reflexivity. Qed.

Lemma never_choice seq : never_calls p (choice seq).
Proof.
  intros w. unfold choice. destruct (Py.len seq) as [e | [| n]]; reflexivity.
Qed.

Lemma never_emit e : p e = false → never_calls p (emit e).
Proof.
  intros He w. unfold emit, calls. simpl. rewrite count_calls_cons, He.
  reflexivity.
Qed.

Lemma never_bind {A B} (m : M A) (k : A → M B) :
  never_calls p m → (∀ a, never_calls p (k a)) → never_calls p (bind m k).
Proof.
  intros Hm Hk w. specialize (Hm w). unfold bind, calls in *.
  destruct (m w) as [[[e | a] w1] t1]; simpl in *; [exact Hm |].
  specialize (Hk a w1). unfold calls in Hk.
  destruct (k a w1) as [[r w2] t2]. simpl in *.
  rewrite count_calls_app, Hm, Hk. reflexivity.
Qed.

Lemma never_if {A} (c : bool) (m1 m2 : M A) :
  never_calls p m1 → never_calls p m2 → never_calls p (if c then m1 else m2).
Proof. destruct c; auto. Qed.

End Never.

Create HintDb never_db.

#[local] Hint Resolve never_ret never_raise never_get_self never_update_self
  never_lift never_choice never_if : never_db.

Ltac never_tac :=
  repeat first
    [ solve [auto with never_db]
    | apply never_emit; solve [auto]
    | apply never_bind; [| intros ?]
    | match goal with
      | |- never_calls _ (match ?x with _ => _ end) => destruct x
      | |- never_calls _ (if ?c then _ else _) => destruct c
      end ].

Section NeverMethods.

Variable json_loads : string → exn + pyval.
Variable int_of_str : string → option Z.
Variable p : event → bool.
Hypothesis p_print : ∀ origin message, p (Print origin message) = false.

Lemma log_never o m : never_calls p (log o m).
Proof. unfold log. never_tac. Qed.

Lemma load_internal_settings_never path :
  never_calls p (load_internal_settings json_loads path).
Proof.
  unfold load_internal_settings. apply never_if; [auto with never_db |].
  intros w. destruct (files w !! path) as [[text |] |].
  - apply (never_lift p (json_loads text) w).
  - reflexivity.
  - pose proof log_never.
    apply (never_bind p (log "Bot" loading_failed_message) (λ _, ret PyNone));
      auto with never_db.
Qed.

Lemma set_internal_settings_never path :
  never_calls p (set_internal_settings json_loads int_of_str path).
Proof.
  unfold set_internal_settings.
  pose proof log_never. pose proof (load_internal_settings_never path).
  never_tac.
Qed.

Lemma custom_guilds_getitem_never key :
  never_calls p (custom_guilds_getitem key).
Proof. unfold custom_guilds_getitem. never_tac. Qed.

Lemma set_activity_never activity :
  (∀ name, p (ChangePresence name) = false) →
  never_calls p (set_activity activity).
Proof. intros Hp. unfold set_activity, change_presence. never_tac. Qed.

Lemma save_guild_never guild_id :
  (∀ ref, p (WriteSettings ref) = false) →
  (∀ ref, p (WriteData ref) = false) →
  never_calls p (save_guild guild_id).
Proof.
  intros Hs Hd. unfold save_guild, write_settings, write_data.
  pose proof custom_guilds_getitem_never. never_tac.
Qed.

Lemma save_all_guilds_never :
  (∀ ref, p (WriteSettings ref) = false) →
  (∀ ref, p (WriteData ref) = false) →
  never_calls p save_all_guilds.
Proof.
  intros Hs Hd. unfold save_all_guilds.
  apply never_bind; [auto with never_db | intros b].
  induction (dict_values (_custom_guilds b)) as [| g gs IH]; simpl;
    [auto with never_db |].
  unfold write_settings, write_data. never_tac.
Qed.

Lemma prepare_data_never load_guilds_impl :
  p WaitUntilReady = false → p LoadGuilds = false →
  (∀ name, p (ChangePresence name) = false) →
  never_calls p (prepare_data load_guilds_impl).
Proof.
  intros Hw Hl Hc. unfold prepare_data.
  apply never_bind; [auto with never_db | intros b].
  apply never_if; [| auto with never_db].
  pose proof log_never. pose proof (λ a, set_activity_never a Hc).
  unfold wait_until_ready, load_guilds. never_tac.
Qed.

End NeverMethods.

Lemma perform_never json_loads int_of_str load_guilds_impl (p : event → bool) op :
  (∀ origin message, p (Print origin message) = false) →
  (∀ name, p (ChangePresence name) = false) →
  enters_prepare_data op = false
    ∨ (p WaitUntilReady = false ∧ p LoadGuilds = false) →
  saves_guilds op = false
    ∨ ((∀ ref, p (WriteSettings ref) = false)
       ∧ (∀ ref, p (WriteData ref) = false)) →
  never_calls p (perform json_loads int_of_str load_guilds_impl op).
Proof.
  intros Hprint Hpresence Hinit Hsave.
  pose proof (log_never p Hprint) as Hlog.
  pose proof (load_internal_settings_never json_loads p Hprint).
  pose proof (set_internal_settings_never json_loads int_of_str p Hprint).
  pose proof (custom_guilds_getitem_never p).
  pose proof (λ a, set_activity_never p a Hpresence).
  destruct op; simpl;
    unfold on_ready, on_connect, on_disconnect, on_resumed, save, discard,
      is_admin, get_custom_guild; try solve [never_tac].
  - destruct Hinit as [H' | [Hw Hl]]; [discriminate H' |].
    pose proof (prepare_data_never p Hprint load_guilds_impl Hw Hl Hpresence).
    never_tac.
  - destruct Hsave as [H' | [Hs Hd]]; [discriminate H' |].
    pose proof (save_all_guilds_never p Hs Hd). never_tac.
  - destruct Hinit as [H' | [Hw Hl]]; [discriminate H' |].
    apply (prepare_data_never p Hprint load_guilds_impl Hw Hl Hpresence).
  - destruct Hsave as [H' | [Hs Hd]]; [discriminate H' |].
    apply (save_guild_never p guild_id Hs Hd).
  - destruct Hsave as [H' | [Hs Hd]]; [discriminate H' |].
    apply (save_all_guilds_never p Hs Hd).
Qed.





(** X14. Guild persistence is only ever invoked by [save], [save_guild]
    and [save_all_guilds]: a sequence of any other operations, the
    initialisation on "ready" and the settings loader included, makes no
    [write_settings] or [write_data] call. *)
Theorem persistence_only_when_saving
    (json_loads : string → exn + pyval)
    (int_of_str : string → option Z)
    (load_guilds_impl : Bot → pydict Guild * option exn)
    (ops : list operation) (w : World) :
  Forall (λ op, saves_guilds op = false) ops →
  count_calls is_persistence
    (perform_all json_loads int_of_str load_guilds_impl ops w).2 = 0%nat.
Proof.
  intros Hops. revert w. induction Hops as [| op ops Hop _ IH]; intros w;
    simpl; [reflexivity |].
  rewrite count_calls_app, IH.
  rewrite (perform_never json_loads int_of_str load_guilds_impl is_persistence op);
    try (intros; reflexivity).
  - right. split; reflexivity.
  - left. exact Hop.
Qed.

Lemma persistence_only_when_saving_witness :
  count_calls is_persistence
    (perform_all Sample.loads Sample.int_of_str Sample.load_two
       [Op_on_ready; Op_set_internal_settings "internal_settings.json";
        Op_get_custom_guild 100]
       (Sample.world Sample.configured)).2
  = 0%nat.
Proof.
  apply (persistence_only_when_saving Sample.loads Sample.int_of_str Sample.load_two).
  repeat constructor.
Defined.

(** X15. The name and the version given at construction are never changed
    by any operation, and the token and the stored activity string only by
    [set_internal_settings]: in particular [set_activity], also when it
    shows ["ERROR"], changes the presence without touching the stored
    activity string. *)
Theorem identity_and_credentials_kept
    (json_loads : string → exn + pyval)
    (int_of_str : string → option Z)
    (load_guilds_impl : Bot → pydict Guild * option exn)
    (ops : list operation) (w : World) :
  let b' := self (perform_all json_loads int_of_str load_guilds_impl ops w).1 in
  _name b' = _name (self w) ∧
  _version b' = _version (self w) ∧
  (Forall (λ op, reloads_settings op = false) ops →
   _token b' = _token (self w) ∧
   _activity_str b' = _activity_str (self w)).
Proof.
  cbv zeta. revert w. induction ops as [| op ops IH]; intros w; simpl.
  - split_and!; try reflexivity. intros _. split; reflexivity.
  - destruct (IH (world_after (perform json_loads int_of_str load_guilds_impl op w)))
      as (Hn & Hv & Hcred).
    assert (Hid : _name (self (world_after
                     (perform json_loads int_of_str load_guilds_impl op w)))
                    = _name (self w)
                  ∧ _version (self (world_after
                       (perform json_loads int_of_str load_guilds_impl op w)))
                    = _version (self w)).
    { apply (perform_keeps json_loads int_of_str load_guilds_impl
               (λ b, _name b = _name (self w) ∧ _version b = _version (self w)));
        try (intros; assumption).
      - right. split_and!; intros; assumption.
      - split; reflexivity. }
    destruct Hid as [Hn1 Hv1].
    split_and!.
    + rewrite Hn. exact Hn1.
    + rewrite Hv. exact Hv1.
    + intros Hops. apply Forall_cons in Hops as [Hop Hops].
      destruct (Hcred Hops) as [Ht Ha]. rewrite Ht, Ha.
      apply (perform_keeps json_loads int_of_str load_guilds_impl
               (λ b, _token b = _token (self w)
                     ∧ _activity_str b = _activity_str (self w)));
        try (intros; assumption).
      * left. exact Hop.
      * split; reflexivity.
Qed.

Lemma identity_and_credentials_kept_witness :
  _activity_str
    (self (perform_all Sample.loads Sample.int_of_str Sample.load_two
             [Op_set_activity "ERROR"; Op_on_ready]
             (Sample.world Sample.configured)).1)
  = PyStr "chess".
Proof.
  refine (proj2 (proj2 (proj2
    (identity_and_credentials_kept Sample.loads Sample.int_of_str Sample.load_two
       [Op_set_activity "ERROR"; Op_on_ready]
       (Sample.world Sample.configured))) _)).
  repeat constructor.
Defined.
